(** * ArmorIQ Admin API: the forwarding facade of [admin-api/main.py]

    A shallow embedding of the single source file of the repository and
    the properties of its forward operation [proxy_request], of the eight
    route handlers, and of the request models [Permissions],
    [PolicyCreate] and [PolicyUpdate]. *)

From Stdlib Require Import String Ascii List ZArith Bool Lia.
Import ListNotations.
Local Open Scope string_scope.
Local Open Scope Z_scope.
Set Warnings "-register-all".

(** ** Python values

    The values that travel through the facade are the ones Python's
    [json] module produces: [None], booleans, integers, floats, strings,
    lists and dicts with string keys.  A dict is kept as an association
    list in insertion order.  A float is carried by the text of its
    literal: the facade never computes with one. *)

Inductive Value : Type :=
| JNull
| JBool (b : bool)
| JInt (n : Z)
| JFloat (literal : string)
| JStr (s : string)
| JArr (items : list Value)
| JObj (fields : list (string * Value)).

(** [d.get(key)] on the association list of a dict. *)
Fixpoint dict_get (key : string) (fields : list (string * Value)) : option Value :=
  match fields with
  | [] => None
  | (k, v) :: rest => if String.eqb k key then Some v else dict_get key rest
  end.

Definition dict_keys (fields : list (string * Value)) : list string :=
  map fst fields.

(** [d[key] = v]: an existing key keeps its position, a new one goes last. *)
Fixpoint dict_set (key : string) (v : Value) (fields : list (string * Value))
  : list (string * Value) :=
  match fields with
  | [] => [(key, v)]
  | (k, w) :: rest =>
      if String.eqb k key then (k, v) :: rest else (k, w) :: dict_set key v rest
  end.

(** Python's [a or b] on strings: the empty string is falsy. *)
Definition str_or (a b : string) : string :=
  match a with
  | EmptyString => b
  | _ => a
  end.

(** [not content] on a byte string. *)
Definition is_empty (content : string) : bool :=
  match content with
  | EmptyString => true
  | _ => false
  end.

(** [code in expected] on a tuple of status codes. *)
Definition status_in (code : Z) (expected : list Z) : bool :=
  existsb (Z.eqb code) expected.

Definition HTTP_204_NO_CONTENT : Z := 204.

(** ** The outbound call and its outcomes *)

(** What [client.request(method, url, json=json)] sends, together with the
    timeout the client was built with (in seconds). *)
Record Request : Type := mkRequest {
  req_method : string;
  req_url : string;
  req_json : option Value;
  req_timeout : Z
}.

(** The attributes of [httpx.Response] the facade reads.  [content] is the
    raw body; [response.text] and [response.json()] are computed from it. *)
Record Response : Type := mkResponse {
  status_code : Z;
  reason_phrase : string;
  content : string
}.

(** The ways the outbound call itself can fail ([httpx.TransportError]). *)
Inductive TransportFault : Type :=
| ConnectError (msg : string)
| TimeoutException (msg : string)
| OtherTransportError (msg : string).

(** The exceptions that can leave a handler.  [HTTPException status detail]
    is the exception object with its attributes [status_code] and
    [detail]; [ValueError value] is the error that [http.HTTPStatus(value)]
    raises for a value that is not a status code it knows. *)
Inductive Exc : Type :=
| HTTPException (status : Z) (detail : Value)
| RequestValidationError
| TransportError (fault : TransportFault)
| ValueError (value : Z).

(** ** A monad for handlers

    A handler runs against the log of the requests sent upstream so far
    and either returns a value or raises; the log survives a raise. *)

Definition Log : Type := list Request.

Definition M (A : Type) : Type := Log -> (Exc + A) * Log.

Definition ret {A} (a : A) : M A := fun log => (inr a, log).

Definition raise {A} (e : Exc) : M A := fun log => (inl e, log).

Definition bind {A B} (c : M A) (k : A -> M B) : M B :=
  fun log =>
    match c log with
    | (inl e, log') => (inl e, log')
    | (inr a, log') => k a log'
    end.

Declare Scope handler_scope.
Delimit Scope handler_scope with handler.
Notation "x <- c ;; k" := (bind c (fun x => k))
  (at level 61, c at next level, right associativity) : handler_scope.
Notation "c ;;; k" := (bind c (fun _ => k))
  (at level 61, right associativity) : handler_scope.
Local Open Scope handler_scope.

(** ** The request models

    The three [BaseModel] classes.  [model_dump] is
    [model_dump(mode="json")], which keeps every declared field and
    renders an unset flag as [None].  [model_validate] is the validation
    the framework runs on a decoded request body before the handler is
    called: the body must be a dict, a field declared with [Field(...)]
    is required, a field with a default may be missing, keys that are
    not declared are ignored, and a [str] field takes a string as it is.

    A flag of type [Optional[bool]] takes [None] and booleans as they
    are.  What the validator makes of any other value (its table of lax
    conversions) is the parameter [lax_bool]. *)

Definition validate_str (v : Value) : option string :=
  match v with
  | JStr s => Some s
  | _ => None
  end.

Definition validate_optional_bool (lax_bool : Value -> option bool) (v : Value)
  : option (option bool) :=
  match v with
  | JNull => Some None
  | JBool b => Some (Some b)
  | other => option_map Some (lax_bool other)
  end.

(** A field with default [None]: missing means unset. *)
Definition validate_flag (lax_bool : Value -> option bool) (key : string)
    (fields : list (string * Value)) : option (option bool) :=
  match dict_get key fields with
  | None => Some None
  | Some v => validate_optional_bool lax_bool v
  end.

Definition dump_optional_bool (flag : option bool) : Value :=
  match flag with
  | None => JNull
  | Some b => JBool b
  end.

Module Permissions.

Record t : Type := mk {
  read : option bool;
  create : option bool;
  update : option bool;
  delete : option bool
}.

(** [Permissions()]: every flag at its default. *)
Definition default : t := mk None None None None.

Definition field_names : list string := ["read"; "create"; "update"; "delete"].

Definition model_dump (p : t) : Value :=
  JObj [("read", dump_optional_bool (read p));
        ("create", dump_optional_bool (create p));
        ("update", dump_optional_bool (update p));
        ("delete", dump_optional_bool (delete p))].

Definition model_validate (lax_bool : Value -> option bool) (v : Value) : option t :=
  match v with
  | JObj fields =>
      match validate_flag lax_bool "read" fields,
            validate_flag lax_bool "create" fields,
            validate_flag lax_bool "update" fields,
            validate_flag lax_bool "delete" fields with
      | Some r, Some c, Some u, Some d => Some (mk r c u d)
      | _, _, _, _ => None
      end
  | _ => None
  end.

End Permissions.

(** A field of type [Permissions] with [default_factory=Permissions]. *)
Definition validate_permissions (lax_bool : Value -> option bool)
    (fields : list (string * Value)) : option Permissions.t :=
  match dict_get "permissions" fields with
  | None => Some Permissions.default
  | Some v => Permissions.model_validate lax_bool v
  end.

Module PolicyCreate.

Record t : Type := mk {
  agentId : string;
  endpointId : string;
  permissions : Permissions.t
}.

Definition field_names : list string := ["agentId"; "endpointId"; "permissions"].

Definition model_dump (p : t) : Value :=
  JObj [("agentId", JStr (agentId p));
        ("endpointId", JStr (endpointId p));
        ("permissions", Permissions.model_dump (permissions p))].

Definition model_validate (lax_bool : Value -> option bool) (v : Value) : option t :=
  match v with
  | JObj fields =>
      match dict_get "agentId" fields with
      | None => None
      | Some a =>
          match dict_get "endpointId" fields with
          | None => None
          | Some e =>
              match validate_str a, validate_str e,
                    validate_permissions lax_bool fields with
              | Some a', Some e', Some perms => Some (mk a' e' perms)
              | _, _, _ => None
              end
          end
      end
  | _ => None
  end.

End PolicyCreate.

Module PolicyUpdate.

Record t : Type := mk {
  permissions : Permissions.t
}.

Definition field_names : list string := ["permissions"].

Definition model_dump (p : t) : Value :=
  JObj [("permissions", Permissions.model_dump (permissions p))].

Definition model_validate (lax_bool : Value -> option bool) (v : Value) : option t :=
  match v with
  | JObj fields => option_map mk (validate_permissions lax_bool fields)
  | _ => None
  end.

End PolicyUpdate.

(** ** The routes

    What the decorators register.  A call of a handler, with its
    arguments bound, is an [Endpoint]; [route_method], [route_path]
    and [route_status_code] are the arguments of its decorator. *)

Inductive Endpoint : Type :=
| GetStatus
| GetLogs
| GetEndpoints
| ListPolicies
| GetPolicy (agent_id : string)
| CreatePolicy (payload : PolicyCreate.t)
| UpdatePolicy (agent_id : string) (payload : PolicyUpdate.t)
| DeletePolicy (agent_id : string).

Definition route_method (e : Endpoint) : string :=
  match e with
  | GetStatus | GetLogs | GetEndpoints | ListPolicies | GetPolicy _ => "GET"
  | CreatePolicy _ => "POST"
  | UpdatePolicy _ _ => "PUT"
  | DeletePolicy _ => "DELETE"
  end.

Definition route_path (e : Endpoint) : string :=
  match e with
  | GetStatus => "/status"
  | GetLogs => "/logs"
  | GetEndpoints => "/endpoints"
  | ListPolicies | CreatePolicy _ => "/policies"
  | GetPolicy agent_id | UpdatePolicy agent_id _ | DeletePolicy agent_id =>
      "/policies/" ++ agent_id
  end.

Definition route_status_code (e : Endpoint) : Z :=
  match e with
  | CreatePolicy _ => 201
  | DeletePolicy _ => 204
  | _ => 200
  end.

(** An inbound request as it reaches the application: the route it
    matched, the path parameter, and the decoded JSON body where the
    handler has a [payload] parameter. *)
Inductive Inbound : Type :=
| InGetStatus
| InGetLogs
| InGetEndpoints
| InListPolicies
| InGetPolicy (agent_id : string)
| InCreatePolicy (body : Value)
| InUpdatePolicy (agent_id : string) (body : Value)
| InDeletePolicy (agent_id : string).

(** ** Instances of the parameters, for running the model

    The theorems below hold for every environment, upstream, decoder and
    conversion table.  To run the handlers on concrete exchanges the
    parameters are instantiated here: a decoder for JSON texts (without
    [\u] escapes and the constants [NaN] and [Infinity]; its error
    messages are shortened), the identity as text decoding, the table
    of status phrases, and the conversions of integers and strings to
    [bool]. *)

Module Decoder.

Definition dquote : ascii := "034"%char.

Definition is_ws (c : ascii) : bool :=
  Ascii.eqb c " " || Ascii.eqb c "009" || Ascii.eqb c "010" || Ascii.eqb c "013".

Definition is_digit (c : ascii) : bool :=
  let n := nat_of_ascii c in (Nat.leb 48 n && Nat.leb n 57)%bool.

Fixpoint skip_ws (s : string) : string :=
  match s with
  | String c rest => if is_ws c then skip_ws rest else s
  | EmptyString => s
  end.

Fixpoint strip_prefix (p s : string) : option string :=
  match p, s with
  | EmptyString, _ => Some s
  | String a p', String b s' => if Ascii.eqb a b then strip_prefix p' s' else None
  | String _ _, EmptyString => None
  end.

(** The characters of a string literal after its opening quote. *)
Fixpoint string_body (s : string) : option (string * string) :=
  match s with
  | EmptyString => None
  | String c rest =>
      if Ascii.eqb c dquote then Some (EmptyString, rest)
      else if Ascii.eqb c "\" then
        match rest with
        | String e rest' =>
            let unescaped :=
              if Ascii.eqb e dquote then Some dquote
              else if Ascii.eqb e "\" then Some "\"%char
              else if Ascii.eqb e "/" then Some "/"%char
              else if Ascii.eqb e "b" then Some "008"%char
              else if Ascii.eqb e "f" then Some "012"%char
              else if Ascii.eqb e "n" then Some "010"%char
              else if Ascii.eqb e "r" then Some "013"%char
              else if Ascii.eqb e "t" then Some "009"%char
              else None in
            match unescaped, string_body rest' with
            | Some u, Some (body, after) => Some (String u body, after)
            | _, _ => None
            end
        | EmptyString => None
        end
      else if Nat.ltb (nat_of_ascii c) 32 then None
      else
        match string_body rest with
        | Some (body, after) => Some (String c body, after)
        | None => None
        end
  end.

Fixpoint digits (s : string) : string * string :=
  match s with
  | String c rest =>
      if is_digit c then let (d, after) := digits rest in (String c d, after)
      else (EmptyString, s)
  | EmptyString => (EmptyString, s)
  end.

Definition digits_value (d : string) : Z :=
  fold_left (fun acc c => 10 * acc + Z.of_nat (nat_of_ascii c - 48))
            (list_ascii_of_string d) 0.

(** An integer literal without leading zeros, then an optional fraction
    and an optional exponent. *)
Definition number (s : string) : option (Value * string) :=
  let (negative, s1) :=
    match s with
    | String "-" rest => (true, rest)
    | _ => (false, s)
    end in
  let (int_part, s2) :=
    match digits s1 with
    | (String "0" (String c more), after) => ("0", String c more ++ after)
    | found => found
    end in
  if is_empty int_part then None
  else
    let (frac, s3) :=
      match s2 with
      | String "." rest =>
          let (d, after) := digits rest in
          match d with
          | EmptyString => (EmptyString, s2)
          | _ => (String "." d, after)
          end
      | _ => (EmptyString, s2)
      end in
    let (exponent, s4) :=
      match s3 with
      | String e rest =>
          if Ascii.eqb e "e" || Ascii.eqb e "E" then
            let (sign, rest') :=
              match rest with
              | String "+" r => ("+", r)
              | String "-" r => ("-", r)
              | _ => ("", rest)
              end in
            let (d, after) := digits rest' in
            match d with
            | EmptyString => (EmptyString, s3)
            | _ => (String e (sign ++ d), after)
            end
          else (EmptyString, s3)
      | EmptyString => (EmptyString, s3)
      end in
    match frac, exponent with
    | EmptyString, EmptyString =>
        let n := digits_value int_part in
        Some (JInt (if negative then - n else n), s4)
    | _, _ =>
        Some (JFloat ((if negative then "-" else "") ++ int_part ++ frac ++ exponent),
              s4)
    end.

Fixpoint value (fuel : nat) (s : string) : option (Value * string) :=
  match fuel with
  | O => None
  | S fuel' =>
      match skip_ws s with
      | EmptyString => None
      | String c rest as s' =>
          if Ascii.eqb c "n" then option_map (pair JNull) (strip_prefix "null" s')
          else if Ascii.eqb c "t" then
            option_map (pair (JBool true)) (strip_prefix "true" s')
          else if Ascii.eqb c "f" then
            option_map (pair (JBool false)) (strip_prefix "false" s')
          else if Ascii.eqb c dquote then
            match string_body rest with
            | Some (str, after) => Some (JStr str, after)
            | None => None
            end
          else if Ascii.eqb c "[" then
            match skip_ws rest with
            | String "]" after => Some (JArr [], after)
            | _ => items fuel' rest []
            end
          else if Ascii.eqb c "{" then
            match skip_ws rest with
            | String "}" after => Some (JObj [], after)
            | _ => members fuel' rest []
            end
          else number s'
      end
  end
with items (fuel : nat) (s : string) (acc : list Value) : option (Value * string) :=
  match fuel with
  | O => None
  | S fuel' =>
      match value fuel' s with
      | None => None
      | Some (v, rest) =>
          match skip_ws rest with
          | String "," after => items fuel' after (acc ++ [v])%list
          | String "]" after => Some (JArr (acc ++ [v])%list, after)
          | _ => None
          end
      end
  end
with members (fuel : nat) (s : string) (acc : list (string * Value))
  : option (Value * string) :=
  match fuel with
  | O => None
  | S fuel' =>
      match skip_ws s with
      | String c rest =>
          if Ascii.eqb c dquote then
            match string_body rest with
            | None => None
            | Some (key, after_key) =>
                match skip_ws after_key with
                | String ":" after_colon =>
                    match value fuel' after_colon with
                    | None => None
                    | Some (v, rest') =>
                        match skip_ws rest' with
                        | String "," after => members fuel' after (dict_set key v acc)
                        | String "}" after => Some (JObj (dict_set key v acc), after)
                        | _ => None
                        end
                    end
                | _ => None
                end
            end
          else None
      | EmptyString => None
      end
  end.

Definition loads (s : string) : string + Value :=
  match value (2 * String.length s + 2) s with
  | None => inl "Expecting value"
  | Some (v, rest) =>
      match skip_ws rest with
      | EmptyString => inr v
      | _ => inl "Extra data"
      end
  end.

(** JSON texts are written with ['] for the double quote. *)
Fixpoint js (s : string) : string :=
  match s with
  | EmptyString => EmptyString
  | String c rest => String (if Ascii.eqb c "'" then dquote else c) (js rest)
  end.

End Decoder.

(** The remaining parameters. *)
Module Instance.

(** No variable is set in the environment. *)
Definition environ (name : string) : option string := None.

Definition decode (body : string) : string := body.

Definition lower (c : ascii) : ascii :=
  let n := nat_of_ascii c in
  if (Nat.leb 65 n && Nat.leb n 90)%bool then ascii_of_nat (n + 32) else c.

Fixpoint lowercase (s : string) : string :=
  match s with
  | EmptyString => EmptyString
  | String c rest => String (lower c) (lowercase rest)
  end.

Definition member (s : string) (l : list string) : bool :=
  existsb (String.eqb s) l.

(** Integers 0 and 1, and the spellings of false and true.  (The
    validator also takes the floats 0.0 and 1.0, which are left out.) *)
Definition lax_bool (v : Value) : option bool :=
  match v with
  | JInt 0 => Some false
  | JInt 1 => Some true
  | JStr s =>
      let w := lowercase s in
      if member w ["0"; "off"; "f"; "false"; "n"; "no"] then Some false
      else if member w ["1"; "on"; "t"; "true"; "y"; "yes"] then Some true
      else None
  | _ => None
  end.

(** The status codes and phrases of [http.HTTPStatus] (Python 3.11). *)
Definition status_phrases : list (Z * string) :=
  [
   (100, "Continue");
   (101, "Switching Protocols");
   (102, "Processing");
   (103, "Early Hints");
   (200, "OK");
   (201, "Created");
   (202, "Accepted");
   (203, "Non-Authoritative Information");
   (204, "No Content");
   (205, "Reset Content");
   (206, "Partial Content");
   (207, "Multi-Status");
   (208, "Already Reported");
   (226, "IM Used");
   (300, "Multiple Choices");
   (301, "Moved Permanently");
   (302, "Found");
   (303, "See Other");
   (304, "Not Modified");
   (305, "Use Proxy");
   (307, "Temporary Redirect");
   (308, "Permanent Redirect");
   (400, "Bad Request");
   (401, "Unauthorized");
   (402, "Payment Required");
   (403, "Forbidden");
   (404, "Not Found");
   (405, "Method Not Allowed");
   (406, "Not Acceptable");
   (407, "Proxy Authentication Required");
   (408, "Request Timeout");
   (409, "Conflict");
   (410, "Gone");
   (411, "Length Required");
   (412, "Precondition Failed");
   (413, "Request Entity Too Large");
   (414, "Request-URI Too Long");
   (415, "Unsupported Media Type");
   (416, "Requested Range Not Satisfiable");
   (417, "Expectation Failed");
   (418, "I'm a Teapot");
   (421, "Misdirected Request");
   (422, "Unprocessable Entity");
   (423, "Locked");
   (424, "Failed Dependency");
   (425, "Too Early");
   (426, "Upgrade Required");
   (428, "Precondition Required");
   (429, "Too Many Requests");
   (431, "Request Header Fields Too Large");
   (451, "Unavailable For Legal Reasons");
   (500, "Internal Server Error");
   (501, "Not Implemented");
   (502, "Bad Gateway");
   (503, "Service Unavailable");
   (504, "Gateway Timeout");
   (505, "HTTP Version Not Supported");
   (506, "Variant Also Negotiates");
   (507, "Insufficient Storage");
   (508, "Loop Detected");
   (510, "Not Extended");
   (511, "Network Authentication Required")
  ].

Definition status_phrase (code : Z) : option string :=
  option_map snd (find (fun row => Z.eqb (fst row) code) status_phrases).

(** An upstream that gives the same answer to every call. *)
Definition answers (response : Response) : Log -> Request -> TransportFault + Response :=
  fun _ _ => inr response.

(** An upstream that cannot be reached by the first call made to it and
    answers every later one. *)
Definition fails_once (fault : TransportFault) (response : Response)
  : Log -> Request -> TransportFault + Response :=
  fun log _ =>
    match log with
    | [] => inl fault
    | _ => inr response
    end.

End Instance.

(** Answers of the upstream used in the exchanges at the end. *)
Module Scenario.

Definition not_found : Response :=
  mkResponse 404 "Not Found" (Decoder.js "{'error':'not found'}").

Definition created : Response :=
  mkResponse 201 "Created"
    (Decoder.js "{'agentId':'a1','endpointId':'e1','permissions':{'read':true,'create':null,'update':null,'delete':null}}").

Definition deleted : Response := mkResponse 204 "No Content" "".

Definition malformed_200 : Response := mkResponse 200 "OK" "not-json".

Definition malformed_204 : Response := mkResponse 204 "No Content" "not-json".

Definition create_payload : PolicyCreate.t :=
  PolicyCreate.mk "a1" "e1" (Permissions.mk (Some true) None None None).

(** A create request whose [agentId] is the empty string. *)
Definition empty_agent_fields : list (string * Value) :=
  [("agentId", JStr ""); ("endpointId", JStr "e1")].

(** A create request without [agentId]. *)
Definition no_agent_fields : list (string * Value) :=
  [("endpointId", JStr "e1")].

(** Bodies with keys that the models do not declare. *)
Definition create_fields_with_extras : list (string * Value) :=
  [("note", JStr "x"); ("agentId", JStr "a1"); ("owner", JInt 7);
   ("endpointId", JStr "e1"); ("permissions", JObj [("read", JBool true)])].

Definition update_fields_with_extras : list (string * Value) :=
  [("agentId", JStr "a9"); ("permissions", JObj [("delete", JBool false)]);
   ("comment", JNull)].

Definition update_payload : PolicyUpdate.t :=
  PolicyUpdate.mk (Permissions.mk None None None (Some false)).

(** An answer whose body is the JSON text [null]. *)
Definition null_body : Response := mkResponse 200 "OK" "null".

(** A 200 answer with a JSON body. *)
Definition ok_200 : Response := mkResponse 200 "OK" (Decoder.js "{'ok':true}").

(** A create request whose [agentId] is a number. *)
Definition numeric_agent_fields : list (string * Value) :=
  [("agentId", JInt 7); ("endpointId", JStr "e1")].

(** A body whose [permissions] is [None]. *)
Definition null_permissions_fields : list (string * Value) :=
  [("agentId", JStr "a1"); ("endpointId", JStr "e1"); ("permissions", JNull)].

(** A body without [permissions]. *)
Definition no_permissions_fields : list (string * Value) :=
  [("agentId", JStr "a1"); ("endpointId", JStr "e1")].

(** Unexpected answers whose body is the JSON text [null]: with a status
    code that has a phrase, and with one that has none. *)
Definition null_404 : Response := mkResponse 404 "Not Found" "null".

Definition null_520 : Response := mkResponse 520 "" "null".

(** Unexpected answers whose body is not JSON, and is empty. *)
Definition text_502 : Response := mkResponse 502 "Bad Gateway" "upstream down".

Definition empty_503 : Response := mkResponse 503 "Service Unavailable" "".

(** A create request whose flags are not booleans. *)
Definition lax_flags_fields : list (string * Value) :=
  [("agentId", JStr "a1"); ("endpointId", JStr "e1");
   ("permissions", JObj [("read", JStr "yes"); ("create", JInt 0)])].

Definition lax_flags_payload : PolicyCreate.t :=
  PolicyCreate.mk "a1" "e1" (Permissions.mk (Some true) (Some false) None None).

(** A create request whose identifiers are both the empty string. *)
Definition empty_identifiers_fields : list (string * Value) :=
  [("agentId", JStr ""); ("endpointId", JStr "")].

(** An environment in which the variable is set to the empty string. *)
Definition environ_empty (name : string) : option string :=
  if String.eqb name "ARMORIQ_PROXY_URL" then Some "" else None.

End Scenario.

(** ** The routing table of the specification

    The table of exposed endpoints, row by row as the specification
    gives it: the inbound path and method, the upstream path, and the
    status codes the call expects. *)

Record Row : Type := mkRow {
  row_endpoint : string;
  row_method : string;
  row_upstream_path : string;
  row_expected : list Z
}.

Definition spec_routing_table (e : Endpoint) : Row :=
  match e with
  | GetStatus => mkRow "/status" "GET" "/health" [200]
  | GetLogs => mkRow "/logs" "GET" "/api/audit-logs" [200]
  | GetEndpoints => mkRow "/endpoints" "GET" "/api/endpoints" [200]
  | ListPolicies => mkRow "/policies" "GET" "/api/policies" [200]
  | GetPolicy agentId =>
      mkRow ("/policies/" ++ agentId) "GET" ("/api/policies/" ++ agentId) [200]
  | CreatePolicy _ => mkRow "/policies" "POST" "/api/policies" [201]
  | UpdatePolicy agentId _ =>
      mkRow ("/policies/" ++ agentId) "PUT" ("/api/policies/" ++ agentId) [200]
  | DeletePolicy agentId =>
      mkRow ("/policies/" ++ agentId) "DELETE" ("/api/policies/" ++ agentId) [204]
  end.

(** The body of the row: the payload of a create or an update, as JSON. *)
Definition spec_body (e : Endpoint) : option Value :=
  match e with
  | CreatePolicy payload => Some (PolicyCreate.model_dump payload)
  | UpdatePolicy _ payload => Some (PolicyUpdate.model_dump payload)
  | _ => None
  end.

(** A dict without the keys that a model does not declare. *)
Definition only_declared (names : list string) (fields : list (string * Value))
  : list (string * Value) :=
  filter (fun kv => existsb (String.eqb (fst kv)) names) fields.

(** The value that an inbound body gives for a flag:
    [body["permissions"][key]], where both keys are present. *)
Definition inbound_flag (key : string) (fields : list (string * Value))
  : option Value :=
  match dict_get "permissions" fields with
  | Some (JObj flags) => dict_get key flags
  | _ => None
  end.

(** ** The facade *)

Section Facade.

(** The process environment read by [os.getenv]. *)
Variable environ : string -> option string.

(** The upstream service and the network in front of it: what a call
    yields, given the calls made before it. *)
Variable upstream : Log -> Request -> TransportFault + Response.

(** [json.loads] on a body: the decoded value, or the message of the
    [ValueError] it raises. *)
Variable loads : string -> string + Value.

(** The text decoding of a non-empty body. *)
Variable decode : string -> string.

(** [http.HTTPStatus(code).phrase]: the phrase of a status code, for the
    status codes that [http.HTTPStatus] knows. *)
Variable status_phrase : Z -> option string.

(** The validator's lax conversions to [bool]. *)
Variable lax_bool : Value -> option bool.

Definition PROXY_URL : string :=
  match environ "ARMORIQ_PROXY_URL" with
  | Some url => url
  | None => "http://localhost:5001"
  end.

(** The call that [proxy_request method path json=body] issues. *)
Definition outbound (method path : string) (body : option Value) : Request :=
  mkRequest method (PROXY_URL ++ path) body 10.

(** What [raise HTTPException(status_code=..., detail=...)] raises.  The
    constructor replaces a detail of [None] by the phrase of the status
    code, and looking up the phrase of a status code that
    [http.HTTPStatus] does not know raises [ValueError] instead. *)
Definition new_HTTPException (status : Z) (detail : Value) : Exc :=
  match detail with
  | JNull =>
      match status_phrase status with
      | Some phrase => HTTPException status (JStr phrase)
      | None => ValueError status
      end
  | _ => HTTPException status detail
  end.

(** [response.json()] *)
Definition json (response : Response) : string + Value :=
  loads (content response).

(** [response.text] *)
Definition text (response : Response) : string :=
  if is_empty (content response) then "" else decode (content response).

(** [async with httpx.AsyncClient(timeout=...) as client:
       response = await client.request(method, url, json=json)]
    The call is entered in the log whether or not it gets an answer; a
    transport fault is raised at the call. *)
Definition client_request (timeout : Z) (method url : string)
    (body : option Value) : M Response :=
  fun log =>
    let request := mkRequest method url body timeout in
    match upstream log request with
    | inl fault => (inl (TransportError fault), (log ++ [request])%list)
    | inr response => (inr response, (log ++ [request])%list)
    end.

Definition proxy_request (method path : string) (body : option Value)
    (expected : list Z) : M Value :=
  let url := PROXY_URL ++ path in
  response <- client_request 10 method url body ;;
  if negb (status_in (status_code response) expected) then
    let detail :=
      match json response with
      | inr v => v
      | inl _ =>
          JObj [("error", JStr (str_or (text response) (reason_phrase response)))]
      end in
    raise (new_HTTPException (status_code response) detail)
  else if status_code response =? HTTP_204_NO_CONTENT then
    ret JNull
  else if is_empty (content response) then
    ret JNull
  else
    match json response with
    | inr v => ret v
    | inl exc =>
        raise (new_HTTPException 500
                 (JObj [("error", JStr "Invalid JSON from proxy");
                        ("details", JStr exc)]))
    end.

(** *** The handlers *)

Definition get_status : M Value :=
  proxy_request "GET" "/health" None [200].

Definition get_logs : M Value :=
  proxy_request "GET" "/api/audit-logs" None [200].

Definition get_endpoints : M Value :=
  proxy_request "GET" "/api/endpoints" None [200].

Definition list_policies : M Value :=
  proxy_request "GET" "/api/policies" None [200].

Definition get_policy (agent_id : string) : M Value :=
  proxy_request "GET" ("/api/policies/" ++ agent_id) None [200].

Definition create_policy (payload : PolicyCreate.t) : M Value :=
  proxy_request "POST" "/api/policies"
    (Some (PolicyCreate.model_dump payload)) [201].

Definition update_policy (agent_id : string) (payload : PolicyUpdate.t) : M Value :=
  proxy_request "PUT" ("/api/policies/" ++ agent_id)
    (Some (PolicyUpdate.model_dump payload)) [200].

Definition delete_policy (agent_id : string) : M Value :=
  proxy_request "DELETE" ("/api/policies/" ++ agent_id) None [204] ;;;
  ret JNull.

(** *** Dispatch *)

Definition handler (e : Endpoint) : M Value :=
  match e with
  | GetStatus => get_status
  | GetLogs => get_logs
  | GetEndpoints => get_endpoints
  | ListPolicies => list_policies
  | GetPolicy agent_id => get_policy agent_id
  | CreatePolicy payload => create_policy payload
  | UpdatePolicy agent_id payload => update_policy agent_id payload
  | DeletePolicy agent_id => delete_policy agent_id
  end.

(** The call that the handler of an endpoint issues. *)
Definition endpoint_request (e : Endpoint) : Request :=
  match e with
  | GetStatus => outbound "GET" "/health" None
  | GetLogs => outbound "GET" "/api/audit-logs" None
  | GetEndpoints => outbound "GET" "/api/endpoints" None
  | ListPolicies => outbound "GET" "/api/policies" None
  | GetPolicy agent_id => outbound "GET" ("/api/policies/" ++ agent_id) None
  | CreatePolicy payload =>
      outbound "POST" "/api/policies" (Some (PolicyCreate.model_dump payload))
  | UpdatePolicy agent_id payload =>
      outbound "PUT" ("/api/policies/" ++ agent_id)
        (Some (PolicyUpdate.model_dump payload))
  | DeletePolicy agent_id => outbound "DELETE" ("/api/policies/" ++ agent_id) None
  end.

(** Binding the arguments of the handler.  A [payload] parameter is
    bound by validating the body against its model. *)
Definition bind_arguments (i : Inbound) : option Endpoint :=
  match i with
  | InGetStatus => Some GetStatus
  | InGetLogs => Some GetLogs
  | InGetEndpoints => Some GetEndpoints
  | InListPolicies => Some ListPolicies
  | InGetPolicy agent_id => Some (GetPolicy agent_id)
  | InCreatePolicy body =>
      option_map CreatePolicy (PolicyCreate.model_validate lax_bool body)
  | InUpdatePolicy agent_id body =>
      option_map (UpdatePolicy agent_id) (PolicyUpdate.model_validate lax_bool body)
  | InDeletePolicy agent_id => Some (DeletePolicy agent_id)
  end.

(** When validation fails the handler is not called. *)
Definition serve (i : Inbound) : M Value :=
  match bind_arguments i with
  | Some e => handler e
  | None => raise RequestValidationError
  end.


(** *** Properties *)

Lemma status_in_In (code : Z) (expected : list Z) :
  status_in code expected = true <-> In code expected.
Proof.
  unfold status_in. rewrite existsb_exists. split.
  - intros [x [Hin Heq]]. apply Z.eqb_eq in Heq. now subst.
  - intros Hin. exists code. split; [assumption | apply Z.eqb_refl].
Qed.

Lemma status_in_not_In (code : Z) (expected : list Z) :
  status_in code expected = false <-> ~ In code expected.
Proof.
  rewrite <- status_in_In. destruct (status_in code expected); split; intros H.
  - discriminate.
  - exfalso. now apply H.
  - intros H'. discriminate.
  - reflexivity.
Qed.

Lemma is_empty_false (body : string) : is_empty body = false <-> body <> "".
Proof.
  destruct body; simpl; split; intros H; congruence.
Qed.

Lemma str_or_spec (a b : string) :
  str_or a b = if String.eqb a "" then b else a.
Proof. destruct a; reflexivity. Qed.

Lemma client_request_answered method path body log response :
  upstream log (outbound method path body) = inr response ->
  client_request 10 method (PROXY_URL ++ path) body log
  = (inr response, (log ++ [outbound method path body])%list).
Proof. intros H. unfold client_request. fold (outbound method path body). now rewrite H. Qed.

Lemma client_request_failed method path body log fault :
  upstream log (outbound method path body) = inl fault ->
  client_request 10 method (PROXY_URL ++ path) body log
  = (inl (TransportError fault), (log ++ [outbound method path body])%list).
Proof. intros H. unfold client_request. fold (outbound method path body). now rewrite H. Qed.

(** C1, as amended. When the upstream answers with a status code outside
    the expected ones, [proxy_request] raises an [HTTPException] with
    the status code of the upstream; its detail is the decoded body
    when the body decodes as JSON to a value other than [None], and the
    dict with the single key [error] holding the text of the body, or
    the reason phrase when that text is empty, when the body does not
    decode. *)
Theorem unexpected_status_mirrors_upstream
    method path body expected log response :
  upstream log (outbound method path body) = inr response ->
  ~ In (status_code response) expected ->
  (forall v,
     loads (content response) = inr v ->
     v <> JNull ->
     proxy_request method path body expected log
     = (inl (HTTPException (status_code response) v),
        (log ++ [outbound method path body])%list))
  /\ (forall msg,
        loads (content response) = inl msg ->
        proxy_request method path body expected log
        = (inl (HTTPException (status_code response)
                  (JObj [("error",
                          JStr (if String.eqb (text response) ""
                                then reason_phrase response
                                else text response))])),
           (log ++ [outbound method path body])%list)).
Proof.
  intros Hup Hin. apply status_in_not_In in Hin.
  unfold proxy_request, bind. rewrite (client_request_answered _ _ _ _ _ Hup).
  rewrite Hin. cbn [negb]. unfold raise, json. split.
  - intros v Hv Hnull. rewrite Hv. destruct v; try reflexivity. now elim Hnull.
  - intros msg Hmsg. rewrite Hmsg. now rewrite str_or_spec.
Qed.

(** C2. When the status code is expected and is not 204, and the body
    is not empty and decodes as JSON, [proxy_request] returns the
    decoded value itself. *)
Theorem expected_status_returns_decoded_body
    method path body expected log response v :
  upstream log (outbound method path body) = inr response ->
  In (status_code response) expected ->
  status_code response <> 204 ->
  content response <> "" ->
  loads (content response) = inr v ->
  proxy_request method path body expected log
  = (inr v, (log ++ [outbound method path body])%list).
Proof.
  intros Hup Hin H204 Hbody Hv.
  apply status_in_In in Hin. apply Z.eqb_neq in H204. apply is_empty_false in Hbody.
  unfold proxy_request, bind. rewrite (client_request_answered _ _ _ _ _ Hup).
  rewrite Hin. cbn [negb]. unfold HTTP_204_NO_CONTENT. rewrite H204, Hbody.
  unfold json. now rewrite Hv.
Qed.

(** C3. When the status code is expected and the body, which is not
    empty, does not decode as JSON, [proxy_request] raises an
    [HTTPException] with status code 500 whose detail names the
    condition under [error] and carries the message of the decoding
    failure under [details].  The case is the one left after the answers
    without content: the status code is not 204, whose answers have no
    body. *)
Theorem malformed_body_raises_500
    method path body expected log response msg :
  upstream log (outbound method path body) = inr response ->
  In (status_code response) expected ->
  status_code response <> 204 ->
  content response <> "" ->
  loads (content response) = inl msg ->
  proxy_request method path body expected log
  = (inl (HTTPException 500
            (JObj [("error", JStr "Invalid JSON from proxy");
                   ("details", JStr msg)])),
     (log ++ [outbound method path body])%list).
Proof.
  intros Hup Hin H204 Hbody Hmsg.
  apply status_in_In in Hin. apply Z.eqb_neq in H204. apply is_empty_false in Hbody.
  unfold proxy_request, bind. rewrite (client_request_answered _ _ _ _ _ Hup).
  rewrite Hin. cbn [negb]. unfold HTTP_204_NO_CONTENT. rewrite H204, Hbody.
  unfold json. now rewrite Hmsg.
Qed.

(** Every call of [proxy_request] enters exactly one call in the log. *)
Lemma proxy_request_log method path body expected log :
  snd (proxy_request method path body expected log)
  = (log ++ [outbound method path body])%list.
Proof.
  unfold proxy_request, bind, client_request. fold (outbound method path body).
  destruct (upstream log (outbound method path body)) as [fault | response];
    [reflexivity |].
  destruct (negb (status_in (status_code response) expected)); [reflexivity |].
  destruct (status_code response =? HTTP_204_NO_CONTENT); [reflexivity |].
  destruct (is_empty (content response)); [reflexivity |].
  destruct (json response); reflexivity.
Qed.

(** With 204 as the only expected status code, a call that returns
    returns [None]. *)
Lemma proxy_request_204_returns_none method path body log v log' :
  proxy_request method path body [204] log = (inr v, log') -> v = JNull.
Proof.
  unfold proxy_request, bind, client_request.
  destruct (upstream log _) as [fault | response]; [discriminate |].
  unfold status_in, existsb, HTTP_204_NO_CONTENT.
  destruct (status_code response =? 204); cbn [orb negb].
  - unfold ret. congruence.
  - unfold raise. discriminate.
Qed.

Lemma delete_policy_proxy_request agent_id log :
  delete_policy agent_id log
  = proxy_request "DELETE" ("/api/policies/" ++ agent_id) None [204] log.
Proof.
  unfold delete_policy, bind.
  destruct (proxy_request "DELETE" ("/api/policies/" ++ agent_id) None [204] log)
    as [[e | v] log'] eqn:E; [reflexivity |].
  apply proxy_request_204_returns_none in E. subst v. reflexivity.
Qed.

(** C5. Each of the eight handlers is registered under the method and
    path of its row of the routing table, and calling it is calling
    [proxy_request] with the method, the upstream path and the
    expected status codes of that row. *)
Theorem handlers_follow_routing_table (e : Endpoint) (log : Log) :
  let row := spec_routing_table e in
  route_method e = row_method row
  /\ route_path e = row_endpoint row
  /\ handler e log
     = proxy_request (row_method row) (row_upstream_path row) (spec_body e)
         (row_expected row) log.
Proof.
  destruct e; cbn; repeat split; try reflexivity.
  apply delete_policy_proxy_request.
Qed.

Lemma handler_proxy_request (e : Endpoint) (log : Log) :
  handler e log
  = proxy_request (row_method (spec_routing_table e))
      (row_upstream_path (spec_routing_table e)) (spec_body e)
      (row_expected (spec_routing_table e)) log.
Proof.
  destruct e; cbn; try reflexivity. apply delete_policy_proxy_request.
Qed.

Lemma endpoint_request_row (e : Endpoint) :
  endpoint_request e
  = outbound (row_method (spec_routing_table e))
      (row_upstream_path (spec_routing_table e)) (spec_body e).
Proof. destruct e; reflexivity. Qed.

(** C8. When the outbound call fails in transport, [proxy_request]
    raises that fault itself, not an [HTTPException], after the one
    call it made; and a handler whose call this is raises the same
    fault, having made no other call. *)
Theorem transport_fault_propagates
    method path body expected log fault :
  upstream log (outbound method path body) = inl fault ->
  proxy_request method path body expected log
  = (inl (TransportError fault), (log ++ [outbound method path body])%list)
  /\ forall e,
       endpoint_request e = outbound method path body ->
       handler e log
       = (inl (TransportError fault), (log ++ [outbound method path body])%list).
Proof.
  intros Hup.
  assert (Hproxy_request : forall expected',
    proxy_request method path body expected' log
    = (inl (TransportError fault), (log ++ [outbound method path body])%list)).
  { intros expected'. unfold proxy_request, bind, client_request.
    fold (outbound method path body). now rewrite Hup. }
  split; [apply Hproxy_request |].
  intros e He. rewrite handler_proxy_request.
  rewrite endpoint_request_row in He.
  unfold outbound in He. injection He as Hm Hp Hb.
  rewrite Hm, Hb.
  unfold proxy_request, bind, client_request.
  rewrite Hp. fold (outbound method path body). now rewrite Hup.
Qed.


(** *** The request models on the way through *)

Lemma permissions_round_trip (p : Permissions.t) :
  Permissions.model_validate lax_bool (Permissions.model_dump p) = Some p.
Proof. destruct p as [[r|] [c|] [u|] [d|]]; reflexivity. Qed.

Lemma policy_create_round_trip (p : PolicyCreate.t) :
  PolicyCreate.model_validate lax_bool (PolicyCreate.model_dump p) = Some p.
Proof.
  destruct p as [a e perms]. unfold PolicyCreate.model_dump, PolicyCreate.model_validate.
  cbn [dict_get String.eqb Ascii.eqb Bool.eqb PolicyCreate.agentId
       PolicyCreate.endpointId PolicyCreate.permissions validate_str].
  unfold validate_permissions.
  cbn [dict_get String.eqb Ascii.eqb Bool.eqb].
  now rewrite permissions_round_trip.
Qed.

Lemma serve_create_policy body payload log :
  PolicyCreate.model_validate lax_bool body = Some payload ->
  serve (InCreatePolicy body) log = create_policy payload log.
Proof. intros H. unfold serve, bind_arguments. now rewrite H. Qed.

Lemma serve_update_policy agent_id body payload log :
  PolicyUpdate.model_validate lax_bool body = Some payload ->
  serve (InUpdatePolicy agent_id body) log = update_policy agent_id payload log.
Proof. intros H. unfold serve, bind_arguments. now rewrite H. Qed.

Lemma dict_get_only_declared names key fields :
  In key names ->
  dict_get key (only_declared names fields) = dict_get key fields.
Proof.
  intros Hin. induction fields as [| [k v] rest IH]; [reflexivity |].
  cbn [only_declared filter fst dict_get]. fold (only_declared names rest).
  destruct (String.eqb_spec k key) as [-> | Hne].
  - assert (Hkeep : existsb (String.eqb key) names = true).
    { apply existsb_exists. exists key. split; [assumption | apply String.eqb_refl]. }
    rewrite Hkeep. cbn [dict_get]. now rewrite String.eqb_refl.
  - destruct (existsb (String.eqb k) names); [| exact IH].
    cbn [dict_get]. destruct (String.eqb_spec k key); [contradiction | exact IH].
Qed.

Lemma policy_create_ignores_undeclared fields :
  PolicyCreate.model_validate lax_bool
    (JObj (only_declared PolicyCreate.field_names fields))
  = PolicyCreate.model_validate lax_bool (JObj fields).
Proof.
  unfold PolicyCreate.model_validate, validate_permissions.
  rewrite !dict_get_only_declared by (cbn; tauto). reflexivity.
Qed.

Lemma policy_update_ignores_undeclared fields :
  PolicyUpdate.model_validate lax_bool
    (JObj (only_declared PolicyUpdate.field_names fields))
  = PolicyUpdate.model_validate lax_bool (JObj fields).
Proof.
  unfold PolicyUpdate.model_validate, validate_permissions.
  rewrite !dict_get_only_declared by (cbn; tauto). reflexivity.
Qed.

Lemma validate_str_inv (v : Value) (s : string) :
  validate_str v = Some s -> v = JStr s.
Proof. destruct v; cbn; intros H; try discriminate. now injection H as ->. Qed.

(** What a validated flag is forwarded as, by the value the inbound
    dict gives for it. *)
Lemma validate_flag_inbound key flags r :
  validate_flag lax_bool key flags = Some r ->
  match dict_get key flags with
  | None | Some JNull => dump_optional_bool r = JNull
  | Some (JBool b) => dump_optional_bool r = JBool b
  | Some other =>
      exists b, lax_bool other = Some b /\ dump_optional_bool r = JBool b
  end.
Proof.
  unfold validate_flag. destruct (dict_get key flags) as [v |].
  - destruct v; cbn [validate_optional_bool]; intros H;
      try (injection H as <-; reflexivity);
      match type of H with
      | option_map Some (lax_bool ?other) = _ =>
          destruct (lax_bool other) as [b |]; [| discriminate];
          injection H as <-; exists b; split; reflexivity
      end.
  - intros H. injection H as <-. reflexivity.
Qed.

Lemma permissions_inbound fields perms key :
  validate_permissions lax_bool fields = Some perms ->
  In key Permissions.field_names ->
  match inbound_flag key fields with
  | None | Some JNull =>
      dict_get key [("read", dump_optional_bool (Permissions.read perms));
                    ("create", dump_optional_bool (Permissions.create perms));
                    ("update", dump_optional_bool (Permissions.update perms));
                    ("delete", dump_optional_bool (Permissions.delete perms))]
      = Some JNull
  | Some (JBool b) =>
      dict_get key [("read", dump_optional_bool (Permissions.read perms));
                    ("create", dump_optional_bool (Permissions.create perms));
                    ("update", dump_optional_bool (Permissions.update perms));
                    ("delete", dump_optional_bool (Permissions.delete perms))]
      = Some (JBool b)
  | Some other =>
      exists b,
        lax_bool other = Some b
        /\ dict_get key [("read", dump_optional_bool (Permissions.read perms));
                         ("create", dump_optional_bool (Permissions.create perms));
                         ("update", dump_optional_bool (Permissions.update perms));
                         ("delete", dump_optional_bool (Permissions.delete perms))]
           = Some (JBool b)
  end.
Proof.
  unfold validate_permissions, inbound_flag.
  destruct (dict_get "permissions" fields) as [v |].
  - destruct v as [| | | | | | flags]; try discriminate.
    unfold Permissions.model_validate.
    destruct (validate_flag lax_bool "read" flags) as [r |] eqn:Hr; [| discriminate].
    destruct (validate_flag lax_bool "create" flags) as [c |] eqn:Hc; [| discriminate].
    destruct (validate_flag lax_bool "update" flags) as [u |] eqn:Hu; [| discriminate].
    destruct (validate_flag lax_bool "delete" flags) as [d |] eqn:Hd; [| discriminate].
    intros H. injection H as <-.
    apply validate_flag_inbound in Hr, Hc, Hu, Hd.
    intros [<- | [<- | [<- | [<- | []]]]];
      cbn [dict_get String.eqb Ascii.eqb Bool.eqb Permissions.read
           Permissions.create Permissions.update Permissions.delete].
    + destruct (dict_get "read" flags) as [[] |];
        try (now rewrite Hr); destruct Hr as [b [Hb ->]]; now exists b.
    + destruct (dict_get "create" flags) as [[] |];
        try (now rewrite Hc); destruct Hc as [b [Hb ->]]; now exists b.
    + destruct (dict_get "update" flags) as [[] |];
        try (now rewrite Hu); destruct Hu as [b [Hb ->]]; now exists b.
    + destruct (dict_get "delete" flags) as [[] |];
        try (now rewrite Hd); destruct Hd as [b [Hb ->]]; now exists b.
  - intros H. injection H as <-.
    intros [<- | [<- | [<- | [<- | []]]]]; reflexivity.
Qed.

(** C6, as amended. A body accepted at [POST /policies] is forwarded to
    [POST /api/policies] with the same [agentId] and [endpointId] and,
    under [permissions], the four flags as the validator read them: a
    flag that the body gives as a boolean is forwarded as that boolean,
    a flag that is absent or [None] as [None], and a flag with any other
    accepted value as the boolean that value converts to.  Validating
    the forwarded body gives the same payload again. *)
Theorem create_policy_round_trip body payload log :
  PolicyCreate.model_validate lax_bool body = Some payload ->
  exists fields forwarded flags,
    body = JObj fields
    /\ snd (serve (InCreatePolicy body) log)
       = (log ++ [outbound "POST" "/api/policies" (Some (JObj forwarded))])%list
    /\ dict_keys forwarded = ["agentId"; "endpointId"; "permissions"]
    /\ dict_get "agentId" forwarded = dict_get "agentId" fields
    /\ dict_get "endpointId" forwarded = dict_get "endpointId" fields
    /\ dict_get "permissions" forwarded = Some (JObj flags)
    /\ dict_keys flags = ["read"; "create"; "update"; "delete"]
    /\ (forall key,
          In key Permissions.field_names ->
          match inbound_flag key fields with
          | None | Some JNull => dict_get key flags = Some JNull
          | Some (JBool b) => dict_get key flags = Some (JBool b)
          | Some other =>
              exists b, lax_bool other = Some b /\ dict_get key flags = Some (JBool b)
          end)
    /\ PolicyCreate.model_validate lax_bool (JObj forwarded) = Some payload.
Proof.
  intros Hvalid. destruct body as [| | | | | | fields]; try discriminate.
  pose proof Hvalid as Hv. unfold PolicyCreate.model_validate in Hv.
  destruct (dict_get "agentId" fields) as [a0 |] eqn:Ha; [| discriminate].
  destruct (dict_get "endpointId" fields) as [e0 |] eqn:He; [| discriminate].
  destruct (validate_str a0) as [a |] eqn:Hsa; [| discriminate].
  destruct (validate_str e0) as [e |] eqn:Hse; [| discriminate].
  destruct (validate_permissions lax_bool fields) as [perms |] eqn:Hperms;
    [| discriminate].
  apply validate_str_inv in Hsa, Hse. subst a0 e0. injection Hv as Hpayload.
  exists fields.
  exists [("agentId", JStr a); ("endpointId", JStr e);
          ("permissions", Permissions.model_dump perms)].
  exists [("read", dump_optional_bool (Permissions.read perms));
          ("create", dump_optional_bool (Permissions.create perms));
          ("update", dump_optional_bool (Permissions.update perms));
          ("delete", dump_optional_bool (Permissions.delete perms))].
  split; [reflexivity |]. split.
  { rewrite (serve_create_policy _ _ _ Hvalid). unfold create_policy.
    rewrite proxy_request_log. now rewrite <- Hpayload. }
  split; [reflexivity |]. split; [now rewrite Ha |]. split; [now rewrite He |].
  split; [reflexivity |]. split; [reflexivity |]. split.
  - intros key Hkey. exact (permissions_inbound fields perms key Hperms Hkey).
  - rewrite <- Hpayload.
    exact (policy_create_round_trip (PolicyCreate.mk a e perms)).
Qed.

(** C7, as amended. At [POST /policies] the fields [agentId] and
    [endpointId] are required: a body in which either is absent is
    rejected, and no call goes upstream.  Any two strings are accepted
    as their values, the empty string included, and are forwarded as
    given. *)
Theorem create_policy_requires_identifiers fields log :
  (dict_get "agentId" fields = None \/ dict_get "endpointId" fields = None ->
   serve (InCreatePolicy (JObj fields)) log = (inl RequestValidationError, log))
  /\ (forall a e perms,
        dict_get "agentId" fields = Some (JStr a) ->
        dict_get "endpointId" fields = Some (JStr e) ->
        validate_permissions lax_bool fields = Some perms ->
        serve (InCreatePolicy (JObj fields)) log
        = create_policy (PolicyCreate.mk a e perms) log
        /\ snd (serve (InCreatePolicy (JObj fields)) log)
           = (log ++ [outbound "POST" "/api/policies"
                        (Some (JObj [("agentId", JStr a); ("endpointId", JStr e);
                                     ("permissions",
                                      Permissions.model_dump perms)]))])%list).
Proof.
  split.
  - intros Habsent. unfold serve, bind_arguments, PolicyCreate.model_validate.
    destruct (dict_get "agentId" fields) as [a |]; [| reflexivity].
    destruct Habsent as [H | H]; [discriminate |].
    now rewrite H.
  - intros a e perms Ha He Hperms.
    assert (Hvalid : PolicyCreate.model_validate lax_bool (JObj fields)
                     = Some (PolicyCreate.mk a e perms)).
    { unfold PolicyCreate.model_validate. now rewrite Ha, He, Hperms. }
    rewrite (serve_create_policy _ _ _ Hvalid). split; [reflexivity |].
    unfold create_policy. now rewrite proxy_request_log.
Qed.

(** C9. The body that [POST /policies] and [PUT /policies/{agent_id}]
    forward has a [permissions] dict with exactly the keys [read],
    [create], [update] and [delete], in which a flag that is unset is
    [None] and a flag that is set is its boolean. *)
Theorem forwarded_permissions_are_complete
    (created : PolicyCreate.t) (agent_id : string) (updated : PolicyUpdate.t)
    (log : Log) :
  (exists flags,
     snd (create_policy created log)
     = (log ++ [outbound "POST" "/api/policies"
                  (Some (JObj [("agentId", JStr (PolicyCreate.agentId created));
                               ("endpointId", JStr (PolicyCreate.endpointId created));
                               ("permissions", JObj flags)]))])%list
     /\ dict_keys flags = ["read"; "create"; "update"; "delete"]
     /\ dict_get "read" flags
        = Some (match Permissions.read (PolicyCreate.permissions created) with
                | None => JNull | Some b => JBool b end)
     /\ dict_get "create" flags
        = Some (match Permissions.create (PolicyCreate.permissions created) with
                | None => JNull | Some b => JBool b end)
     /\ dict_get "update" flags
        = Some (match Permissions.update (PolicyCreate.permissions created) with
                | None => JNull | Some b => JBool b end)
     /\ dict_get "delete" flags
        = Some (match Permissions.delete (PolicyCreate.permissions created) with
                | None => JNull | Some b => JBool b end))
  /\ (exists flags,
     snd (update_policy agent_id updated log)
     = (log ++ [outbound "PUT" ("/api/policies/" ++ agent_id)
                  (Some (JObj [("permissions", JObj flags)]))])%list
     /\ dict_keys flags = ["read"; "create"; "update"; "delete"]
     /\ dict_get "read" flags
        = Some (match Permissions.read (PolicyUpdate.permissions updated) with
                | None => JNull | Some b => JBool b end)
     /\ dict_get "create" flags
        = Some (match Permissions.create (PolicyUpdate.permissions updated) with
                | None => JNull | Some b => JBool b end)
     /\ dict_get "update" flags
        = Some (match Permissions.update (PolicyUpdate.permissions updated) with
                | None => JNull | Some b => JBool b end)
     /\ dict_get "delete" flags
        = Some (match Permissions.delete (PolicyUpdate.permissions updated) with
                | None => JNull | Some b => JBool b end)).
Proof.
  split.
  - unfold create_policy. rewrite proxy_request_log.
    eexists. split; [reflexivity |]. repeat split.
  - unfold update_policy. rewrite proxy_request_log.
    eexists. split; [reflexivity |]. repeat split.
Qed.

(** C10. Keys of an inbound body that the model does not declare do
    not count: when the body without them is valid, the body with them
    is accepted, the handler runs on the same payload, and the
    forwarded body has the declared keys and no others. *)
Theorem undeclared_keys_are_dropped
    (create_fields update_fields : list (string * Value))
    (created : PolicyCreate.t) (agent_id : string) (updated : PolicyUpdate.t)
    (log : Log) :
  PolicyCreate.model_validate lax_bool
    (JObj (only_declared PolicyCreate.field_names create_fields)) = Some created ->
  PolicyUpdate.model_validate lax_bool
    (JObj (only_declared PolicyUpdate.field_names update_fields)) = Some updated ->
  (serve (InCreatePolicy (JObj create_fields)) log = create_policy created log
   /\ exists forwarded flags,
        snd (serve (InCreatePolicy (JObj create_fields)) log)
        = (log ++ [outbound "POST" "/api/policies" (Some (JObj forwarded))])%list
        /\ dict_keys forwarded = ["agentId"; "endpointId"; "permissions"]
        /\ dict_get "permissions" forwarded = Some (JObj flags)
        /\ dict_keys flags = ["read"; "create"; "update"; "delete"])
  /\ (serve (InUpdatePolicy agent_id (JObj update_fields)) log
      = update_policy agent_id updated log
      /\ exists forwarded flags,
           snd (serve (InUpdatePolicy agent_id (JObj update_fields)) log)
           = (log ++ [outbound "PUT" ("/api/policies/" ++ agent_id)
                        (Some (JObj forwarded))])%list
           /\ dict_keys forwarded = ["permissions"]
           /\ dict_get "permissions" forwarded = Some (JObj flags)
           /\ dict_keys flags = ["read"; "create"; "update"; "delete"]).
Proof.
  intros Hcreate Hupdate.
  rewrite policy_create_ignores_undeclared in Hcreate.
  rewrite policy_update_ignores_undeclared in Hupdate.
  rewrite (serve_create_policy _ _ _ Hcreate).
  rewrite (serve_update_policy _ _ _ _ Hupdate).
  split; (split; [reflexivity |]).
  - unfold create_policy. rewrite proxy_request_log.
    do 2 eexists. split; [reflexivity |]. repeat split.
  - unfold update_policy. rewrite proxy_request_log.
    do 2 eexists. split; [reflexivity |]. repeat split.
Qed.

(** *** Further properties of [proxy_request] *)

Lemma proxy_request_returns_inv method path body expected log v log' :
  proxy_request method path body expected log = (inr v, log') ->
  exists response,
    upstream log (outbound method path body) = inr response
    /\ In (status_code response) expected
    /\ log' = (log ++ [outbound method path body])%list
    /\ ((status_code response = 204 \/ content response = "") /\ v = JNull
        \/ (status_code response <> 204 /\ content response <> ""
            /\ loads (content response) = inr v)).
Proof.
  clear lax_bool.
  unfold proxy_request, bind, client_request. fold (outbound method path body).
  destruct (upstream log (outbound method path body)) as [fault | response];
    [discriminate |].
  destruct (status_in (status_code response) expected) eqn:Hin; cbn [negb];
    [| unfold raise; discriminate].
  apply status_in_In in Hin. unfold HTTP_204_NO_CONTENT.
  destruct (Z.eqb_spec (status_code response) 204) as [E | NE].
  - unfold ret. intros H. injection H as <- <-. exists response. tauto.
  - destruct (is_empty (content response)) eqn:Hempty.
    + unfold ret. intros H. injection H as <- <-. exists response.
      destruct (content response); [tauto | discriminate].
    + apply is_empty_false in Hempty. unfold json.
      destruct (loads (content response)) as [msg | w] eqn:Hloads;
        [unfold raise; discriminate |].
      unfold ret. intros H. injection H as <- <-. exists response. tauto.
Qed.

(** X1. [proxy_request] returns a value only when the upstream answered
    and the status code of the answer is one of the expected ones: for
    any other answer, and for no answer, nothing is returned. *)
Theorem returns_only_on_expected_status method path body expected log v log' :
  proxy_request method path body expected log = (inr v, log') ->
  exists response,
    upstream log (outbound method path body) = inr response
    /\ In (status_code response) expected.
Proof.
  intros H. apply proxy_request_returns_inv in H.
  destruct H as [response [Hup [Hin _]]]. now exists response.
Qed.

(** X2. An [HTTPException] that leaves [proxy_request] has one of two
    origins: it carries the status code of an answer whose status code
    is not expected; or it is the one with status code 500 and the
    detail [Invalid JSON from proxy], raised for an expected answer,
    not a 204, whose body is not empty and does not decode. *)
Theorem http_exceptions_are_classified
    method path body expected log status detail log' :
  proxy_request method path body expected log
  = (inl (HTTPException status detail), log') ->
  (exists response,
     upstream log (outbound method path body) = inr response
     /\ ~ In (status_code response) expected
     /\ status = status_code response)
  \/ (exists response msg,
        upstream log (outbound method path body) = inr response
        /\ In (status_code response) expected
        /\ status_code response <> 204
        /\ content response <> ""
        /\ loads (content response) = inl msg
        /\ status = 500
        /\ detail = JObj [("error", JStr "Invalid JSON from proxy");
                          ("details", JStr msg)]).
Proof.
  clear lax_bool.
  unfold proxy_request, bind, client_request. fold (outbound method path body).
  destruct (upstream log (outbound method path body)) as [fault | response];
    [discriminate |].
  destruct (status_in (status_code response) expected) eqn:Hin; cbn [negb].
  - apply status_in_In in Hin. unfold HTTP_204_NO_CONTENT.
    destruct (Z.eqb_spec (status_code response) 204) as [E | NE];
      [unfold ret; discriminate |].
    destruct (is_empty (content response)) eqn:Hempty; [unfold ret; discriminate |].
    apply is_empty_false in Hempty. unfold json.
    destruct (loads (content response)) as [msg | w] eqn:Hloads;
      [| unfold ret; discriminate].
    unfold raise, new_HTTPException. intros H. injection H as <- <- _.
    right. exists response, msg. tauto.
  - apply status_in_not_In in Hin. unfold raise, new_HTTPException.
    intros H. left. exists response. split; [reflexivity |]. split; [exact Hin |].
    destruct (match json response with inr v => v | inl _ => _ end);
      try (injection H as <- _; reflexivity).
    destruct (status_phrase (status_code response));
      [injection H as <- _; reflexivity | discriminate].
Qed.

(** X3. For an answer with an expected status code, [proxy_request]
    returns [None] exactly when the status code is 204, or the body is
    empty, or the body decodes to [None] (the JSON text [null]): the
    caller cannot tell these apart. *)
Theorem none_result_characterised method path body expected log response :
  upstream log (outbound method path body) = inr response ->
  In (status_code response) expected ->
  fst (proxy_request method path body expected log) = inr JNull
  <-> status_code response = 204
      \/ content response = ""
      \/ loads (content response) = inr JNull.
Proof.
  clear lax_bool.
  intros Hup Hin. apply status_in_In in Hin.
  unfold proxy_request, bind. rewrite (client_request_answered _ _ _ _ _ Hup).
  rewrite Hin. cbn [negb]. unfold HTTP_204_NO_CONTENT.
  destruct (Z.eqb_spec (status_code response) 204) as [E | NE];
    [cbn; tauto |].
  destruct (is_empty (content response)) eqn:Hempty.
  - destruct (content response); [cbn; tauto | discriminate].
  - apply is_empty_false in Hempty. unfold json.
    destruct (loads (content response)) as [msg | w]; cbn; split.
    + discriminate.
    + intros [H | [H | H]]; [contradiction | contradiction | discriminate].
    + intros H. injection H as ->. tauto.
    + intros [H | [H | H]]; [contradiction | contradiction |].
      now injection H as ->.
Qed.

(** *** Further properties of the handlers *)

Lemma row_expected_route_status_code (e : Endpoint) :
  row_expected (spec_routing_table e) = [route_status_code e].
Proof. destruct e; reflexivity. Qed.

Lemma handler_log (e : Endpoint) (log : Log) :
  snd (handler e log) = (log ++ [endpoint_request e])%list.
Proof.
  rewrite handler_proxy_request, endpoint_request_row. apply proxy_request_log.
Qed.

(** X4. Whatever its outcome, a handler adds exactly one call to the log
    and leaves the earlier entries as they are.  That call has the
    method of the handler's own route and the timeout of 10 seconds, and
    its URL is the base URL followed by [/health] for [/status], by
    [/api/audit-logs] for [/logs], and by [/api] and the inbound path
    for every other route. *)
Theorem handler_issues_one_call (e : Endpoint) (log : Log) :
  exists call,
    snd (handler e log) = (log ++ [call])%list
    /\ req_method call = route_method e
    /\ req_timeout call = 10
    /\ req_url call
       = PROXY_URL ++ match e with
                      | GetStatus => "/health"
                      | GetLogs => "/api/audit-logs"
                      | _ => "/api" ++ route_path e
                      end.
Proof.
  exists (endpoint_request e). split; [apply handler_log |].
  destruct e; repeat split.
Qed.

(** X5. A handler returns a value only when the upstream answered with
    the status code its own route declares: 201 for the create, 204 for
    the delete, 200 for the others. *)
Theorem handler_returns_on_route_status (e : Endpoint) (log : Log) v log' :
  handler e log = (inr v, log') ->
  exists response,
    upstream log (endpoint_request e) = inr response
    /\ status_code response = route_status_code e.
Proof.
  rewrite handler_proxy_request, endpoint_request_row. intros H.
  apply proxy_request_returns_inv in H. destruct H as [response [Hup [Hin _]]].
  exists response. split; [exact Hup |].
  rewrite row_expected_route_status_code in Hin.
  destruct Hin as [<- | []]. reflexivity.
Qed.

(** X6. When the upstream answers a handler with any other status code
    than the one the route declares, a success code included, and the
    body decodes to a value other than [None] or does not decode, the
    handler raises an [HTTPException] with the status code of the
    answer, and with that value, or the [error] dict of the body's
    text, as detail. *)
Theorem handler_raises_on_other_status (e : Endpoint) (log : Log) response :
  upstream log (endpoint_request e) = inr response ->
  status_code response <> route_status_code e ->
  (forall v,
     loads (content response) = inr v ->
     v <> JNull ->
     handler e log
     = (inl (HTTPException (status_code response) v),
        (log ++ [endpoint_request e])%list))
  /\ (forall msg,
        loads (content response) = inl msg ->
        handler e log
        = (inl (HTTPException (status_code response)
                  (JObj [("error",
                          JStr (if String.eqb (text response) ""
                                then reason_phrase response
                                else text response))])),
           (log ++ [endpoint_request e])%list)).
Proof.
  intros Hup Hne. rewrite handler_proxy_request.
  rewrite endpoint_request_row in *.
  unfold proxy_request, bind. rewrite (client_request_answered _ _ _ _ _ Hup).
  rewrite row_expected_route_status_code.
  assert (Hin : status_in (status_code response) [route_status_code e] = false).
  { apply status_in_not_In. intros [H | []]. now apply Hne. }
  rewrite Hin. cbn [negb]. unfold raise, json. split.
  - intros v Hv Hnull. rewrite Hv. destruct v; try reflexivity. now elim Hnull.
  - intros msg Hmsg. rewrite Hmsg. now rewrite str_or_spec.
Qed.

(** X7. [delete_policy] returns, and returns [None], exactly when the
    upstream answers 204; the body of that answer is never looked at. *)
Theorem delete_policy_returns_iff_204 agent_id log response :
  upstream log (endpoint_request (DeletePolicy agent_id)) = inr response ->
  fst (delete_policy agent_id log) = inr JNull
  <-> status_code response = 204.
Proof.
  clear lax_bool.
  intros Hup. rewrite delete_policy_proxy_request.
  cbn [endpoint_request] in Hup.
  unfold proxy_request, bind. rewrite (client_request_answered _ _ _ _ _ Hup).
  unfold status_in, existsb, HTTP_204_NO_CONTENT.
  destruct (Z.eqb_spec (status_code response) 204) as [E | NE]; cbn [orb negb].
  - cbn. tauto.
  - cbn. split; [discriminate | contradiction].
Qed.

(** X13. A handler keeps no state: its outcome depends on the log only
    through the answer of the upstream, so repeating a request against
    an upstream that answers the same gives the same outcome. *)
Theorem outcome_depends_on_answer_only (e : Endpoint) (log1 log2 : Log) :
  upstream log1 (endpoint_request e) = upstream log2 (endpoint_request e) ->
  fst (handler e log1) = fst (handler e log2).
Proof.
  rewrite !handler_proxy_request, endpoint_request_row. intros H.
  unfold proxy_request, bind, client_request.
  fold (outbound (row_method (spec_routing_table e))
          (row_upstream_path (spec_routing_table e)) (spec_body e)).
  rewrite H.
  destruct (upstream log2 _) as [fault | response]; [reflexivity |].
  destruct (negb (status_in (status_code response) _)); [reflexivity |].
  destruct (status_code response =? HTTP_204_NO_CONTENT); [reflexivity |].
  destruct (is_empty (content response)); [reflexivity |].
  destruct (json response); reflexivity.
Qed.

(** X15. A base URL set in the environment is used as it is, the empty
    string included: the default stands in only when the variable is
    not set, and the URL of a call is the base URL and the path put
    together with nothing added. *)
Theorem configured_base_url_is_used base method path body expected log :
  environ "ARMORIQ_PROXY_URL" = Some base ->
  snd (proxy_request method path body expected log)
  = (log ++ [mkRequest method (base ++ path) body 10])%list.
Proof.
  intros Henv. rewrite proxy_request_log. unfold outbound, PROXY_URL.
  now rewrite Henv.
Qed.

(** *** Further properties of the request models *)

Lemma policy_update_round_trip (p : PolicyUpdate.t) :
  PolicyUpdate.model_validate lax_bool (PolicyUpdate.model_dump p) = Some p.
Proof.
  destruct p as [perms]. unfold PolicyUpdate.model_dump, PolicyUpdate.model_validate.
  unfold validate_permissions.
  cbn [dict_get String.eqb Ascii.eqb Bool.eqb PolicyUpdate.permissions].
  now rewrite permissions_round_trip.
Qed.

Lemma permissions_null_flag key flags :
  In key Permissions.field_names ->
  dict_get key flags = None ->
  Permissions.model_validate lax_bool (JObj ((key, JNull) :: flags))
  = Permissions.model_validate lax_bool (JObj flags).
Proof.
  intros Hkey Hunset. unfold Permissions.model_validate, validate_flag.
  destruct Hkey as [<- | [<- | [<- | [<- | []]]]];
    cbn [dict_get String.eqb Ascii.eqb Bool.eqb validate_optional_bool];
    rewrite Hunset; reflexivity.
Qed.

Lemma validate_str_rejects (v : Value) :
  (forall s, v <> JStr s) -> validate_str v = None.
Proof. intros H. destruct v; try reflexivity. exfalso. now apply (H s). Qed.

Lemma permissions_rejects_non_dict (v : Value) :
  (forall fs, v <> JObj fs) -> Permissions.model_validate lax_bool v = None.
Proof. intros H. destruct v; try reflexivity. exfalso. now apply (H fields). Qed.

(** X8. A body accepted at [PUT /policies/{agent_id}] is forwarded to
    [PUT /api/policies/{agent_id}] as the [permissions] dict of the four
    validated flags, an unset flag as [None], and validating the
    forwarded body gives the same payload again. *)
Theorem update_policy_round_trip agent_id body payload log :
  PolicyUpdate.model_validate lax_bool body = Some payload ->
  exists forwarded,
    snd (serve (InUpdatePolicy agent_id body) log)
    = (log ++ [outbound "PUT" ("/api/policies/" ++ agent_id) (Some forwarded)])%list
    /\ forwarded
       = JObj [("permissions",
                JObj [("read", dump_optional_bool
                                 (Permissions.read (PolicyUpdate.permissions payload)));
                      ("create", dump_optional_bool
                                   (Permissions.create (PolicyUpdate.permissions payload)));
                      ("update", dump_optional_bool
                                   (Permissions.update (PolicyUpdate.permissions payload)));
                      ("delete", dump_optional_bool
                                   (Permissions.delete (PolicyUpdate.permissions payload)))])]
    /\ PolicyUpdate.model_validate lax_bool forwarded = Some payload.
Proof.
  intros Hvalid. exists (PolicyUpdate.model_dump payload).
  rewrite (serve_update_policy _ _ _ _ Hvalid). unfold update_policy.
  rewrite proxy_request_log. repeat split. apply policy_update_round_trip.
Qed.

(** X9. A body without the key [permissions] is valid: an update with
    such a body, and a create with such a body and two string
    identifiers, go upstream with a [permissions] dict in which all four
    flags are [None]. *)
Theorem missing_permissions_default fields agent_id log :
  dict_get "permissions" fields = None ->
  snd (serve (InUpdatePolicy agent_id (JObj fields)) log)
  = (log ++ [outbound "PUT" ("/api/policies/" ++ agent_id)
               (Some (JObj [("permissions",
                             JObj [("read", JNull); ("create", JNull);
                                   ("update", JNull); ("delete", JNull)])]))])%list
  /\ forall a e,
       dict_get "agentId" fields = Some (JStr a) ->
       dict_get "endpointId" fields = Some (JStr e) ->
       snd (serve (InCreatePolicy (JObj fields)) log)
       = (log ++ [outbound "POST" "/api/policies"
                    (Some (JObj [("agentId", JStr a); ("endpointId", JStr e);
                                 ("permissions",
                                  JObj [("read", JNull); ("create", JNull);
                                        ("update", JNull); ("delete", JNull)])]))])%list.
Proof.
  intros Hmissing. split.
  - rewrite (serve_update_policy agent_id (JObj fields)
               (PolicyUpdate.mk Permissions.default)).
    + unfold update_policy. now rewrite proxy_request_log.
    + unfold PolicyUpdate.model_validate, validate_permissions. now rewrite Hmissing.
  - intros a e Ha He.
    rewrite (serve_create_policy (JObj fields)
               (PolicyCreate.mk a e Permissions.default)).
    + unfold create_policy. now rewrite proxy_request_log.
    + unfold PolicyCreate.model_validate, validate_permissions.
      now rewrite Ha, He, Hmissing.
Qed.

(** X10. In the [permissions] of an update, a flag given as [None] and a
    flag left out are the same: adding an explicit [None] for a flag
    that is missing changes nothing in how the request is served. *)
Theorem explicit_null_is_unset key flags agent_id log :
  In key Permissions.field_names ->
  dict_get key flags = None ->
  serve (InUpdatePolicy agent_id
           (JObj [("permissions", JObj ((key, JNull) :: flags))])) log
  = serve (InUpdatePolicy agent_id (JObj [("permissions", JObj flags)])) log.
Proof.
  intros Hkey Hunset. unfold serve, bind_arguments.
  unfold PolicyUpdate.model_validate, validate_permissions.
  cbn [dict_get String.eqb Ascii.eqb Bool.eqb].
  now rewrite (permissions_null_flag key flags Hkey Hunset).
Qed.

(** X11. A create whose [agentId] or [endpointId] is present but is not
    a string is rejected, and no call goes upstream. *)
Theorem non_string_identifier_rejected fields v log :
  dict_get "agentId" fields = Some v \/ dict_get "endpointId" fields = Some v ->
  (forall s, v <> JStr s) ->
  serve (InCreatePolicy (JObj fields)) log = (inl RequestValidationError, log).
Proof.
  intros Hfield Hv. apply validate_str_rejects in Hv.
  unfold serve, bind_arguments, PolicyCreate.model_validate.
  destruct (dict_get "agentId" fields) as [a |]; [| reflexivity].
  destruct (dict_get "endpointId" fields) as [e |]; [| reflexivity].
  destruct Hfield as [H | H]; injection H as ->; rewrite Hv.
  - reflexivity.
  - destruct (validate_str a); reflexivity.
Qed.

(** X12. A create or an update whose [permissions] is present but is not
    a dict, [None] included, is rejected, and no call goes upstream. *)
Theorem non_dict_permissions_rejected fields v agent_id log :
  dict_get "permissions" fields = Some v ->
  (forall fs, v <> JObj fs) ->
  serve (InCreatePolicy (JObj fields)) log = (inl RequestValidationError, log)
  /\ serve (InUpdatePolicy agent_id (JObj fields)) log
     = (inl RequestValidationError, log).
Proof.
  intros Hfield Hv. apply permissions_rejects_non_dict in Hv.
  unfold serve, bind_arguments, PolicyCreate.model_validate,
    PolicyUpdate.model_validate, validate_permissions.
  rewrite Hfield, Hv. split; [| reflexivity].
  destruct (dict_get "agentId" fields) as [a |]; [| reflexivity].
  destruct (dict_get "endpointId" fields) as [e |]; [| reflexivity].
  destruct (validate_str a); [| reflexivity].
  destruct (validate_str e); reflexivity.
Qed.

(** X16. When the upstream answers with a status code outside the
    expected ones and the body decodes to [None] (the JSON text
    [null]), the detail of the [HTTPException] is not the decoded body
    but the phrase of the status code; and for a status code that has
    no phrase no [HTTPException] is raised at all: a [ValueError] leaves
    [proxy_request]. *)
Theorem null_body_detail_is_phrase method path body expected log response :
  upstream log (outbound method path body) = inr response ->
  ~ In (status_code response) expected ->
  loads (content response) = inr JNull ->
  (forall phrase,
     status_phrase (status_code response) = Some phrase ->
     proxy_request method path body expected log
     = (inl (HTTPException (status_code response) (JStr phrase)),
        (log ++ [outbound method path body])%list))
  /\ (status_phrase (status_code response) = None ->
      proxy_request method path body expected log
      = (inl (ValueError (status_code response)),
         (log ++ [outbound method path body])%list)).
Proof.
  intros Hup Hin Hnull. apply status_in_not_In in Hin.
  unfold proxy_request, bind. rewrite (client_request_answered _ _ _ _ _ Hup).
  rewrite Hin. cbn [negb]. unfold raise, json, new_HTTPException. rewrite Hnull.
  split.
  - intros phrase Hphrase. now rewrite Hphrase.
  - intros Hnone. now rewrite Hnone.
Qed.

End Facade.

(** C4. When the status code is expected and either it is 204 or the
    body is empty, [proxy_request] returns [None]; this holds whatever
    the decoder would do with the body, so the body is not decoded and
    no exception is raised. *)
Theorem no_content_returns_none
    environ upstream decode status_phrase method path body expected log response :
  upstream log (outbound environ method path body) = inr response ->
  In (status_code response) expected ->
  status_code response = 204 \/ content response = "" ->
  forall any_loads : string -> string + Value,
    proxy_request environ upstream any_loads decode status_phrase
      method path body expected log
    = (inr JNull, (log ++ [outbound environ method path body])%list).
Proof.
  intros Hup Hin Hcase any_loads. apply status_in_In in Hin.
  unfold proxy_request, bind.
  rewrite (client_request_answered _ _ _ _ _ _ _ Hup).
  rewrite Hin. cbn [negb]. unfold HTTP_204_NO_CONTENT.
  destruct (Z.eqb_spec (status_code response) 204) as [E | NE]; [reflexivity |].
  destruct Hcase as [E | E]; [contradiction |].
  now rewrite E.
Qed.

(** ** Exchanges

    The theorems at concrete exchanges, run with the decoder and the
    conversion table of [Decoder] and [Instance]. *)

(** [GET /policies/unknown] against an upstream that answers 404 with
    a JSON body, and [GET /status] against one that answers 502 with a
    text that is not JSON: the handler raises 404 with the body
    decoded, and 502 with the text under [error]. *)
Lemma unexpected_status_exchange :
  let run up := proxy_request Instance.environ up Decoder.loads Instance.decode
                  Instance.status_phrase in
  ((Instance.answers Scenario.not_found []
      (outbound Instance.environ "GET" "/api/policies/unknown" None)
    = inr Scenario.not_found
    /\ ~ In (status_code Scenario.not_found) [200])
   /\ run (Instance.answers Scenario.not_found)
        "GET" "/api/policies/unknown" None [200] []
      = (inl (HTTPException 404 (JObj [("error", JStr "not found")])),
         [mkRequest "GET" "http://localhost:5001/api/policies/unknown" None 10]))
  /\ ((Instance.answers Scenario.text_502 []
         (outbound Instance.environ "GET" "/health" None)
       = inr Scenario.text_502
       /\ ~ In (status_code Scenario.text_502) [200])
      /\ run (Instance.answers Scenario.text_502) "GET" "/health" None [200] []
         = (inl (HTTPException 502 (JObj [("error", JStr "upstream down")])),
            [mkRequest "GET" "http://localhost:5001/health" None 10])).
Proof.
  cbv zeta.
  assert (H0 : Instance.answers Scenario.not_found []
                 (outbound Instance.environ "GET" "/api/policies/unknown" None)
               = inr Scenario.not_found) by reflexivity.
  assert (H1 : ~ In (status_code Scenario.not_found) [200]) by (cbn; lia).
  assert (H2 : Instance.answers Scenario.text_502 []
                 (outbound Instance.environ "GET" "/health" None)
               = inr Scenario.text_502) by reflexivity.
  assert (H3 : ~ In (status_code Scenario.text_502) [200]) by (cbn; lia).
  split; (split; [first [exact (conj H0 H1) | exact (conj H2 H3)] |]).
  - rewrite (proj1 (unexpected_status_mirrors_upstream Instance.environ
                      (Instance.answers Scenario.not_found) Decoder.loads
                      Instance.decode Instance.status_phrase
                      "GET" "/api/policies/unknown" None [200] []
                      Scenario.not_found H0 H1)
               (JObj [("error", JStr "not found")]));
      [reflexivity | reflexivity | discriminate].
  - rewrite (proj2 (unexpected_status_mirrors_upstream Instance.environ
                      (Instance.answers Scenario.text_502) Decoder.loads
                      Instance.decode Instance.status_phrase
                      "GET" "/health" None [200] [] Scenario.text_502 H2 H3)
               "Expecting value");
      reflexivity.
Defined.

(** An answer with an unexpected status code and an empty body: the
    detail holds the reason phrase of the answer. *)
Lemma unexpected_status_empty_body_exchange :
  proxy_request Instance.environ (Instance.answers Scenario.empty_503)
    Decoder.loads Instance.decode Instance.status_phrase "GET" "/health" None [200] []
  = (inl (HTTPException 503 (JObj [("error", JStr "Service Unavailable")])),
     [mkRequest "GET" "http://localhost:5001/health" None 10]).
Proof. vm_compute. reflexivity. Qed.

(** [GET /policies/unknown] against an upstream that answers 404 with the
    body [null]: the body decodes, to [None], and the detail raised is
    not that value but the phrase of the status code. *)
Lemma null_body_detail_is_not_the_body :
  let r := Scenario.null_404 in
  let up := Instance.answers r in
  let run := proxy_request Instance.environ up Decoder.loads Instance.decode
               Instance.status_phrase "GET" "/api/policies/unknown" None [200] [] in
  up [] (outbound Instance.environ "GET" "/api/policies/unknown" None) = inr r
  /\ ~ In (status_code r) [200]
  /\ Decoder.loads (content r) = inr JNull
  /\ run = (inl (HTTPException 404 (JStr "Not Found")),
            [mkRequest "GET" "http://localhost:5001/api/policies/unknown" None 10])
  /\ fst run <> inl (HTTPException 404 JNull).
Proof.
  cbv zeta. split; [reflexivity |]. split; [cbn; lia |].
  split; [vm_compute; reflexivity |]. split; [vm_compute; reflexivity |].
  vm_compute. discriminate.
Qed.

(** [POST /policies] against an upstream that answers 201 with the
    created policy: the handler returns that policy. *)
Lemma decoded_body_exchange :
  let r := Scenario.created in
  let up := Instance.answers r in
  let sent := Some (PolicyCreate.model_dump Scenario.create_payload) in
  let v := JObj [("agentId", JStr "a1"); ("endpointId", JStr "e1");
                 ("permissions",
                  JObj [("read", JBool true); ("create", JNull);
                        ("update", JNull); ("delete", JNull)])] in
  (up [] (outbound Instance.environ "POST" "/api/policies" sent) = inr r
   /\ In (status_code r) [201]
   /\ status_code r <> 204
   /\ content r <> ""
   /\ Decoder.loads (content r) = inr v)
  /\ proxy_request Instance.environ up Decoder.loads Instance.decode
    Instance.status_phrase
       "POST" "/api/policies" sent [201] []
     = (inr v, ([] ++ [outbound Instance.environ "POST" "/api/policies" sent])%list).
Proof.
  cbv zeta.
  set (sent := Some (PolicyCreate.model_dump Scenario.create_payload)).
  assert (H0 : Instance.answers Scenario.created []
                 (outbound Instance.environ "POST" "/api/policies" sent)
               = inr Scenario.created) by reflexivity.
  assert (H1 : In (status_code Scenario.created) [201]) by (cbn; lia).
  assert (H2 : status_code Scenario.created <> 204) by (cbn; lia).
  assert (H3 : content Scenario.created <> "") by (vm_compute; discriminate).
  assert (H4 : Decoder.loads (content Scenario.created)
               = inr (JObj [("agentId", JStr "a1"); ("endpointId", JStr "e1");
                            ("permissions",
                             JObj [("read", JBool true); ("create", JNull);
                                   ("update", JNull); ("delete", JNull)])]))
    by (vm_compute; reflexivity).
  exact (conj (conj H0 (conj H1 (conj H2 (conj H3 H4))))
           (expected_status_returns_decoded_body Instance.environ
              (Instance.answers Scenario.created) Decoder.loads Instance.decode
                Instance.status_phrase
              "POST" "/api/policies" sent [201] [] Scenario.created _
              H0 H1 H2 H3 H4)).
Defined.

(** An upstream that answers 200 with a body that is not JSON: the
    handler raises 500 with the message of the decoder. *)
Lemma malformed_body_exchange :
  let r := Scenario.malformed_200 in
  let up := Instance.answers r in
  (up [] (outbound Instance.environ "GET" "/health" None) = inr r
   /\ In (status_code r) [200]
   /\ status_code r <> 204
   /\ content r <> ""
   /\ Decoder.loads (content r) = inl "Expecting value")
  /\ proxy_request Instance.environ up Decoder.loads Instance.decode
    Instance.status_phrase
       "GET" "/health" None [200] []
     = (inl (HTTPException 500
               (JObj [("error", JStr "Invalid JSON from proxy");
                      ("details", JStr "Expecting value")])),
        ([] ++ [outbound Instance.environ "GET" "/health" None])%list).
Proof.
  cbv zeta.
  assert (H0 : Instance.answers Scenario.malformed_200 []
                 (outbound Instance.environ "GET" "/health" None)
               = inr Scenario.malformed_200) by reflexivity.
  assert (H1 : In (status_code Scenario.malformed_200) [200]) by (cbn; lia).
  assert (H2 : status_code Scenario.malformed_200 <> 204) by (cbn; lia).
  assert (H3 : content Scenario.malformed_200 <> "") by (vm_compute; discriminate).
  assert (H4 : Decoder.loads (content Scenario.malformed_200) = inl "Expecting value")
    by (vm_compute; reflexivity).
  exact (conj (conj H0 (conj H1 (conj H2 (conj H3 H4))))
           (malformed_body_raises_500 Instance.environ
              (Instance.answers Scenario.malformed_200) Decoder.loads Instance.decode
                Instance.status_phrase
              "GET" "/health" None [200] [] Scenario.malformed_200 _
              H0 H1 H2 H3 H4)).
Defined.

(** [DELETE /policies/a1] against an upstream that answers 204 with an
    empty body: the handler returns [None]. *)
Lemma no_content_exchange :
  let r := Scenario.deleted in
  let up := Instance.answers r in
  (up [] (outbound Instance.environ "DELETE" "/api/policies/a1" None) = inr r
   /\ In (status_code r) [204]
   /\ (status_code r = 204 \/ content r = ""))
  /\ forall any_loads : string -> string + Value,
       proxy_request Instance.environ up any_loads Instance.decode
         Instance.status_phrase
         "DELETE" "/api/policies/a1" None [204] []
       = (inr JNull,
          ([] ++ [outbound Instance.environ "DELETE" "/api/policies/a1" None])%list).
Proof.
  cbv zeta.
  assert (H0 : Instance.answers Scenario.deleted []
                 (outbound Instance.environ "DELETE" "/api/policies/a1" None)
               = inr Scenario.deleted) by reflexivity.
  assert (H1 : In (status_code Scenario.deleted) [204]) by (cbn; lia).
  assert (H2 : status_code Scenario.deleted = 204 \/ content Scenario.deleted = "")
    by (left; reflexivity).
  exact (conj (conj H0 (conj H1 H2))
           (no_content_returns_none Instance.environ
              (Instance.answers Scenario.deleted) Instance.decode Instance.status_phrase
              "DELETE" "/api/policies/a1" None [204] [] Scenario.deleted
              H0 H1 H2)).
Defined.

(** [POST /policies] with a body that gives [read] as the string [yes]
    and [create] as the number 0: the body is accepted, and the flags
    are forwarded as the booleans they convert to. *)
Lemma create_policy_round_trip_exchange :
  let up := Instance.answers Scenario.created in
  let body := JObj Scenario.lax_flags_fields in
  PolicyCreate.model_validate Instance.lax_bool body = Some Scenario.lax_flags_payload
  /\ exists fields forwarded flags,
       body = JObj fields
       /\ snd (serve Instance.environ up Decoder.loads Instance.decode
                 Instance.status_phrase Instance.lax_bool (InCreatePolicy body) [])
          = ([] ++ [outbound Instance.environ "POST" "/api/policies"
                      (Some (JObj forwarded))])%list
       /\ dict_keys forwarded = ["agentId"; "endpointId"; "permissions"]
       /\ dict_get "agentId" forwarded = dict_get "agentId" fields
       /\ dict_get "endpointId" forwarded = dict_get "endpointId" fields
       /\ dict_get "permissions" forwarded = Some (JObj flags)
       /\ dict_keys flags = ["read"; "create"; "update"; "delete"]
       /\ (forall key,
             In key Permissions.field_names ->
             match inbound_flag key fields with
             | None | Some JNull => dict_get key flags = Some JNull
             | Some (JBool b) => dict_get key flags = Some (JBool b)
             | Some other =>
                 exists b,
                   Instance.lax_bool other = Some b
                   /\ dict_get key flags = Some (JBool b)
             end)
       /\ PolicyCreate.model_validate Instance.lax_bool (JObj forwarded)
          = Some Scenario.lax_flags_payload.
Proof.
  cbv zeta.
  assert (H0 : PolicyCreate.model_validate Instance.lax_bool
                 (JObj Scenario.lax_flags_fields)
               = Some Scenario.lax_flags_payload) by reflexivity.
  exact (conj H0
           (create_policy_round_trip Instance.environ
              (Instance.answers Scenario.created) Decoder.loads Instance.decode
              Instance.status_phrase Instance.lax_bool
              (JObj Scenario.lax_flags_fields) Scenario.lax_flags_payload [] H0)).
Defined.

(** The same request: the body is valid, its [read] is the string [yes]
    and its [create] the number 0, and what goes upstream has [true]
    and [false] in their places, which are not the inbound values. *)
Lemma lax_flags_are_not_forwarded_as_given :
  let up := Instance.answers Scenario.created in
  let run := serve Instance.environ up Decoder.loads Instance.decode
               Instance.status_phrase Instance.lax_bool
               (InCreatePolicy (JObj Scenario.lax_flags_fields)) [] in
  PolicyCreate.model_validate Instance.lax_bool (JObj Scenario.lax_flags_fields)
  = Some Scenario.lax_flags_payload
  /\ inbound_flag "read" Scenario.lax_flags_fields = Some (JStr "yes")
  /\ inbound_flag "create" Scenario.lax_flags_fields = Some (JInt 0)
  /\ snd run
     = [mkRequest "POST" "http://localhost:5001/api/policies"
          (Some (JObj [("agentId", JStr "a1"); ("endpointId", JStr "e1");
                       ("permissions",
                        JObj [("read", JBool true); ("create", JBool false);
                              ("update", JNull); ("delete", JNull)])]))
          10]
  /\ JBool true <> JStr "yes"
  /\ JBool false <> JInt 0.
Proof.
  cbv zeta. split; [reflexivity |]. split; [reflexivity |].
  split; [reflexivity |]. split; [vm_compute; reflexivity |].
  split; discriminate.
Qed.

(** [POST /policies] with a body that has no [agentId]: the request is
    rejected and the log stays empty.  With the empty string for both
    identifiers: the request goes upstream with them. *)
Lemma missing_agent_id_exchange :
  let up := Instance.answers Scenario.created in
  let serve := serve Instance.environ up Decoder.loads Instance.decode
                 Instance.status_phrase Instance.lax_bool in
  ((dict_get "agentId" Scenario.no_agent_fields = None
    \/ dict_get "endpointId" Scenario.no_agent_fields = None)
   /\ serve (InCreatePolicy (JObj Scenario.no_agent_fields)) []
      = (inl RequestValidationError, []))
  /\ ((dict_get "agentId" Scenario.empty_identifiers_fields = Some (JStr "")
       /\ dict_get "endpointId" Scenario.empty_identifiers_fields = Some (JStr "")
       /\ validate_permissions Instance.lax_bool Scenario.empty_identifiers_fields
          = Some Permissions.default)
      /\ snd (serve (InCreatePolicy (JObj Scenario.empty_identifiers_fields)) [])
         = ([] ++ [outbound Instance.environ "POST" "/api/policies"
                     (Some (JObj [("agentId", JStr ""); ("endpointId", JStr "");
                                  ("permissions",
                                   Permissions.model_dump Permissions.default)]))])%list).
Proof.
  cbv zeta.
  assert (H0 : dict_get "agentId" Scenario.no_agent_fields = None
               \/ dict_get "endpointId" Scenario.no_agent_fields = None)
    by (left; reflexivity).
  assert (H1 : dict_get "agentId" Scenario.empty_identifiers_fields = Some (JStr ""))
    by reflexivity.
  assert (H2 : dict_get "endpointId" Scenario.empty_identifiers_fields
               = Some (JStr "")) by reflexivity.
  assert (H3 : validate_permissions Instance.lax_bool
                 Scenario.empty_identifiers_fields
               = Some Permissions.default) by reflexivity.
  split.
  - exact (conj H0
             (proj1 (create_policy_requires_identifiers Instance.environ
                       (Instance.answers Scenario.created) Decoder.loads
                       Instance.decode Instance.status_phrase Instance.lax_bool
                       Scenario.no_agent_fields []) H0)).
  - exact (conj (conj H1 (conj H2 H3))
             (proj2 (proj2 (create_policy_requires_identifiers Instance.environ
                              (Instance.answers Scenario.created) Decoder.loads
                              Instance.decode Instance.status_phrase
                              Instance.lax_bool
                              Scenario.empty_identifiers_fields [])
                       "" "" Permissions.default H1 H2 H3))).
Defined.

(** [POST /policies] with the empty string as [agentId]: the body is
    valid, the request goes upstream with the empty identifier, and the
    answer of the upstream is returned. *)
Lemma empty_agent_id_is_forwarded :
  let up := Instance.answers Scenario.created in
  let run := serve Instance.environ up Decoder.loads Instance.decode
    Instance.status_phrase Instance.lax_bool
               (InCreatePolicy (JObj Scenario.empty_agent_fields)) [] in
  dict_get "agentId" Scenario.empty_agent_fields = Some (JStr "")
  /\ snd run
     = [mkRequest "POST" "http://localhost:5001/api/policies"
          (Some (JObj [("agentId", JStr ""); ("endpointId", JStr "e1");
                       ("permissions",
                        JObj [("read", JNull); ("create", JNull);
                              ("update", JNull); ("delete", JNull)])]))
          10]
  /\ fst run <> inl RequestValidationError
  /\ run <> (inl RequestValidationError, []).
Proof.
  cbv zeta. split; [reflexivity |]. split; [vm_compute; reflexivity |].
  split; vm_compute; discriminate.
Qed.

(** [GET /status] against an upstream that refuses the first connection
    and would answer a second one: the fault is raised after one call. *)
Lemma transport_fault_exchange :
  let fault := ConnectError "connection refused" in
  let up := Instance.fails_once fault Scenario.created in
  up [] (outbound Instance.environ "GET" "/health" None) = inl fault
  /\ (proxy_request Instance.environ up Decoder.loads Instance.decode
    Instance.status_phrase
        "GET" "/health" None [200] []
      = (inl (TransportError fault),
         ([] ++ [outbound Instance.environ "GET" "/health" None])%list)
      /\ forall e,
           endpoint_request Instance.environ e
           = outbound Instance.environ "GET" "/health" None ->
           handler Instance.environ up Decoder.loads Instance.decode
             Instance.status_phrase e []
           = (inl (TransportError fault),
              ([] ++ [outbound Instance.environ "GET" "/health" None])%list)).
Proof.
  cbv zeta.
  assert (H0 : Instance.fails_once (ConnectError "connection refused")
                 Scenario.created []
                 (outbound Instance.environ "GET" "/health" None)
               = inl (ConnectError "connection refused")) by reflexivity.
  exact (conj H0
           (transport_fault_propagates Instance.environ
              (Instance.fails_once (ConnectError "connection refused")
                 Scenario.created)
              Decoder.loads Instance.decode
                Instance.status_phrase "GET" "/health" None [200] []
              (ConnectError "connection refused") H0)).
Defined.

(** A create and an update whose bodies carry keys that the models do
    not declare: both are accepted and forwarded without those keys. *)
Lemma undeclared_keys_exchange :
  let up := Instance.answers Scenario.created in
  let serve := serve Instance.environ up Decoder.loads Instance.decode
    Instance.status_phrase
                 Instance.lax_bool in
  (PolicyCreate.model_validate Instance.lax_bool
     (JObj (only_declared PolicyCreate.field_names Scenario.create_fields_with_extras))
   = Some Scenario.create_payload
   /\ PolicyUpdate.model_validate Instance.lax_bool
        (JObj (only_declared PolicyUpdate.field_names Scenario.update_fields_with_extras))
      = Some Scenario.update_payload)
  /\ snd (serve (InCreatePolicy (JObj Scenario.create_fields_with_extras)) [])
     = [mkRequest "POST" "http://localhost:5001/api/policies"
          (Some (JObj [("agentId", JStr "a1"); ("endpointId", JStr "e1");
                       ("permissions",
                        JObj [("read", JBool true); ("create", JNull);
                              ("update", JNull); ("delete", JNull)])]))
          10]
  /\ snd (serve (InUpdatePolicy "a1" (JObj Scenario.update_fields_with_extras)) [])
     = [mkRequest "PUT" "http://localhost:5001/api/policies/a1"
          (Some (JObj [("permissions",
                        JObj [("read", JNull); ("create", JNull);
                              ("update", JNull); ("delete", JBool false)])]))
          10].
Proof.
  cbv zeta.
  assert (H0 : PolicyCreate.model_validate Instance.lax_bool
                 (JObj (only_declared PolicyCreate.field_names
                          Scenario.create_fields_with_extras))
               = Some Scenario.create_payload) by reflexivity.
  assert (H1 : PolicyUpdate.model_validate Instance.lax_bool
                 (JObj (only_declared PolicyUpdate.field_names
                          Scenario.update_fields_with_extras))
               = Some Scenario.update_payload) by reflexivity.
  split; [exact (conj H0 H1) |].
  destruct (undeclared_keys_are_dropped Instance.environ
              (Instance.answers Scenario.created) Decoder.loads Instance.decode
                Instance.status_phrase
              Instance.lax_bool Scenario.create_fields_with_extras
              Scenario.update_fields_with_extras Scenario.create_payload "a1"
              Scenario.update_payload [] H0 H1)
    as [[Hcreate _] [Hupdate _]].
  rewrite Hcreate, Hupdate. split; vm_compute; reflexivity.
Defined.

(** ** Further exchanges *)

(** A create answered with 201: the value returned comes with an answer
    whose status code is expected. *)
Lemma returns_only_on_expected_status_exchange :
  let up := Instance.answers Scenario.created in
  let sent := Some (PolicyCreate.model_dump Scenario.create_payload) in
  let v := JObj [("agentId", JStr "a1"); ("endpointId", JStr "e1");
                 ("permissions",
                  JObj [("read", JBool true); ("create", JNull);
                        ("update", JNull); ("delete", JNull)])] in
  proxy_request Instance.environ up Decoder.loads Instance.decode Instance.status_phrase
    "POST" "/api/policies" sent [201] []
  = (inr v, [outbound Instance.environ "POST" "/api/policies" sent])
  /\ exists response,
       up [] (outbound Instance.environ "POST" "/api/policies" sent) = inr response
       /\ In (status_code response) [201].
Proof.
  cbv zeta.
  set (sent := Some (PolicyCreate.model_dump Scenario.create_payload)).
  assert (H0 : proxy_request Instance.environ (Instance.answers Scenario.created)
                 Decoder.loads Instance.decode
                   Instance.status_phrase "POST" "/api/policies" sent [201] []
               = (inr (JObj [("agentId", JStr "a1"); ("endpointId", JStr "e1");
                             ("permissions",
                              JObj [("read", JBool true); ("create", JNull);
                                    ("update", JNull); ("delete", JNull)])]),
                  [outbound Instance.environ "POST" "/api/policies" sent]))
    by (vm_compute; reflexivity).
  exact (conj H0
           (returns_only_on_expected_status Instance.environ
              (Instance.answers Scenario.created) Decoder.loads Instance.decode
                Instance.status_phrase
              "POST" "/api/policies" sent [201] [] _ _ H0)).
Defined.

(** A 200 answer that is not JSON: the exception raised is of the second
    origin. *)
Lemma http_exceptions_exchange :
  let up := Instance.answers Scenario.malformed_200 in
  let req := outbound Instance.environ "GET" "/health" None in
  let detail := JObj [("error", JStr "Invalid JSON from proxy");
                      ("details", JStr "Expecting value")] in
  proxy_request Instance.environ up Decoder.loads Instance.decode
    Instance.status_phrase "GET" "/health" None [200] []
  = (inl (HTTPException 500 detail), [req])
  /\ ((exists response,
         up [] req = inr response
         /\ ~ In (status_code response) [200]
         /\ 500 = status_code response)
      \/ (exists response msg,
            up [] req = inr response
            /\ In (status_code response) [200]
            /\ status_code response <> 204
            /\ content response <> ""
            /\ Decoder.loads (content response) = inl msg
            /\ 500 = 500
            /\ detail = JObj [("error", JStr "Invalid JSON from proxy");
                              ("details", JStr msg)])).
Proof.
  cbv zeta.
  assert (H0 : proxy_request Instance.environ (Instance.answers Scenario.malformed_200)
                 Decoder.loads Instance.decode Instance.status_phrase
                 "GET" "/health" None [200] []
               = (inl (HTTPException 500
                         (JObj [("error", JStr "Invalid JSON from proxy");
                                ("details", JStr "Expecting value")])),
                  [outbound Instance.environ "GET" "/health" None]))
    by (vm_compute; reflexivity).
  exact (conj H0
           (http_exceptions_are_classified Instance.environ
              (Instance.answers Scenario.malformed_200) Decoder.loads Instance.decode
              Instance.status_phrase "GET" "/health" None [200] [] _ _ _ H0)).
Defined.

(** A 200 answer whose body is the JSON text [null]. *)
Lemma none_result_exchange :
  let r := Scenario.null_body in
  let up := Instance.answers r in
  (up [] (outbound Instance.environ "GET" "/api/policies" None) = inr r
   /\ In (status_code r) [200])
  /\ (fst (proxy_request Instance.environ up Decoder.loads Instance.decode
    Instance.status_phrase
             "GET" "/api/policies" None [200] []) = inr JNull
      <-> status_code r = 204 \/ content r = ""
          \/ Decoder.loads (content r) = inr JNull).
Proof.
  cbv zeta.
  assert (H0 : Instance.answers Scenario.null_body []
                 (outbound Instance.environ "GET" "/api/policies" None)
               = inr Scenario.null_body) by reflexivity.
  assert (H1 : In (status_code Scenario.null_body) [200]) by (cbn; lia).
  exact (conj (conj H0 H1)
           (none_result_characterised Instance.environ
              (Instance.answers Scenario.null_body) Decoder.loads Instance.decode
                Instance.status_phrase
              "GET" "/api/policies" None [200] [] Scenario.null_body H0 H1)).
Defined.

(** [GET /policies/a1] answered with 200. *)
Lemma handler_returns_exchange :
  let up := Instance.answers Scenario.ok_200 in
  handler Instance.environ up Decoder.loads Instance.decode
    Instance.status_phrase (GetPolicy "a1") []
  = (inr (JObj [("ok", JBool true)]),
     [endpoint_request Instance.environ (GetPolicy "a1")])
  /\ exists response,
       up [] (endpoint_request Instance.environ (GetPolicy "a1")) = inr response
       /\ status_code response = route_status_code (GetPolicy "a1").
Proof.
  cbv zeta.
  assert (H0 : handler Instance.environ (Instance.answers Scenario.ok_200)
                 Decoder.loads Instance.decode
                   Instance.status_phrase (GetPolicy "a1") []
               = (inr (JObj [("ok", JBool true)]),
                  [endpoint_request Instance.environ (GetPolicy "a1")]))
    by (vm_compute; reflexivity).
  exact (conj H0
           (handler_returns_on_route_status Instance.environ
              (Instance.answers Scenario.ok_200) Decoder.loads Instance.decode
                Instance.status_phrase
              (GetPolicy "a1") [] _ _ H0)).
Defined.

(** [POST /policies] answered with 200 instead of 201: the handler
    raises an [HTTPException] with status code 200 and the decoded body
    as detail. *)
Lemma handler_raises_exchange :
  let r := Scenario.ok_200 in
  let up := Instance.answers r in
  let e := CreatePolicy Scenario.create_payload in
  (up [] (endpoint_request Instance.environ e) = inr r
   /\ status_code r <> route_status_code e)
  /\ handler Instance.environ up Decoder.loads Instance.decode
       Instance.status_phrase e []
     = (inl (HTTPException 200 (JObj [("ok", JBool true)])),
        ([] ++ [endpoint_request Instance.environ e])%list).
Proof.
  cbv zeta.
  assert (H0 : Instance.answers Scenario.ok_200 []
                 (endpoint_request Instance.environ
                    (CreatePolicy Scenario.create_payload))
               = inr Scenario.ok_200) by reflexivity.
  assert (H1 : status_code Scenario.ok_200
               <> route_status_code (CreatePolicy Scenario.create_payload))
    by (cbn; lia).
  split; [exact (conj H0 H1) |].
  apply (proj1 (handler_raises_on_other_status Instance.environ
                  (Instance.answers Scenario.ok_200) Decoder.loads Instance.decode
                  Instance.status_phrase
                  (CreatePolicy Scenario.create_payload) [] Scenario.ok_200 H0 H1)
           (JObj [("ok", JBool true)])).
  - reflexivity.
  - discriminate.
Defined.

(** [DELETE /policies/a1] answered with 204 and a body that is not
    JSON. *)
Lemma delete_policy_exchange :
  let r := Scenario.malformed_204 in
  let up := Instance.answers r in
  up [] (endpoint_request Instance.environ (DeletePolicy "a1")) = inr r
  /\ (fst (delete_policy Instance.environ up Decoder.loads Instance.decode
    Instance.status_phrase "a1" [])
      = inr JNull
      <-> status_code r = 204).
Proof.
  cbv zeta.
  assert (H0 : Instance.answers Scenario.malformed_204 []
                 (endpoint_request Instance.environ (DeletePolicy "a1"))
               = inr Scenario.malformed_204) by reflexivity.
  exact (conj H0
           (delete_policy_returns_iff_204 Instance.environ
              (Instance.answers Scenario.malformed_204) Decoder.loads Instance.decode
                Instance.status_phrase
              "a1" [] Scenario.malformed_204 H0)).
Defined.

(** The same [GET /status] after another call has been made. *)
Lemma repeated_request_exchange :
  let up := Instance.answers Scenario.ok_200 in
  let earlier := [endpoint_request Instance.environ GetLogs] in
  up [] (endpoint_request Instance.environ GetStatus)
  = up earlier (endpoint_request Instance.environ GetStatus)
  /\ fst (handler Instance.environ up Decoder.loads Instance.decode
    Instance.status_phrase GetStatus [])
     = fst (handler Instance.environ up Decoder.loads Instance.decode
       Instance.status_phrase GetStatus earlier).
Proof.
  cbv zeta.
  assert (H0 : Instance.answers Scenario.ok_200 []
                 (endpoint_request Instance.environ GetStatus)
               = Instance.answers Scenario.ok_200
                   [endpoint_request Instance.environ GetLogs]
                   (endpoint_request Instance.environ GetStatus)) by reflexivity.
  exact (conj H0
           (outcome_depends_on_answer_only Instance.environ
              (Instance.answers Scenario.ok_200) Decoder.loads Instance.decode
                Instance.status_phrase
              GetStatus [] [endpoint_request Instance.environ GetLogs] H0)).
Defined.

(** The variable set to the empty string: the URL of the call is the
    path alone. *)
Lemma empty_base_url_exchange :
  let up := Instance.answers Scenario.ok_200 in
  Scenario.environ_empty "ARMORIQ_PROXY_URL" = Some ""
  /\ snd (proxy_request Scenario.environ_empty up Decoder.loads Instance.decode
    Instance.status_phrase
            "GET" "/health" None [200] [])
     = ([] ++ [mkRequest "GET" ("" ++ "/health") None 10])%list.
Proof.
  cbv zeta.
  assert (H0 : Scenario.environ_empty "ARMORIQ_PROXY_URL" = Some "") by reflexivity.
  exact (conj H0
           (configured_base_url_is_used Scenario.environ_empty
              (Instance.answers Scenario.ok_200) Decoder.loads Instance.decode
                Instance.status_phrase
              "" "GET" "/health" None [200] [] H0)).
Defined.

(** [PUT /policies/a1] with a body that sets one flag. *)
Lemma update_policy_round_trip_exchange :
  let up := Instance.answers Scenario.ok_200 in
  let body := JObj Scenario.update_fields_with_extras in
  PolicyUpdate.model_validate Instance.lax_bool body = Some Scenario.update_payload
  /\ exists forwarded,
       snd (serve Instance.environ up Decoder.loads Instance.decode
         Instance.status_phrase Instance.lax_bool
              (InUpdatePolicy "a1" body) [])
       = ([] ++ [outbound Instance.environ "PUT" ("/api/policies/" ++ "a1")
                   (Some forwarded)])%list
       /\ forwarded
          = JObj [("permissions",
                   JObj [("read", JNull); ("create", JNull);
                         ("update", JNull); ("delete", JBool false)])]
       /\ PolicyUpdate.model_validate Instance.lax_bool forwarded
          = Some Scenario.update_payload.
Proof.
  cbv zeta.
  assert (H0 : PolicyUpdate.model_validate Instance.lax_bool
                 (JObj Scenario.update_fields_with_extras)
               = Some Scenario.update_payload) by reflexivity.
  exact (conj H0
           (update_policy_round_trip Instance.environ
              (Instance.answers Scenario.ok_200) Decoder.loads Instance.decode
                Instance.status_phrase
              Instance.lax_bool "a1" (JObj Scenario.update_fields_with_extras)
              Scenario.update_payload [] H0)).
Defined.

(** An update and a create whose bodies have no [permissions]. *)
Lemma missing_permissions_exchange :
  let up := Instance.answers Scenario.ok_200 in
  let serve := serve Instance.environ up Decoder.loads Instance.decode
    Instance.status_phrase
                 Instance.lax_bool in
  let unset := JObj [("read", JNull); ("create", JNull);
                     ("update", JNull); ("delete", JNull)] in
  dict_get "permissions" Scenario.no_permissions_fields = None
  /\ snd (serve (InUpdatePolicy "a1" (JObj Scenario.no_permissions_fields)) [])
     = [mkRequest "PUT" "http://localhost:5001/api/policies/a1"
          (Some (JObj [("permissions", unset)])) 10]
  /\ snd (serve (InCreatePolicy (JObj Scenario.no_permissions_fields)) [])
     = [mkRequest "POST" "http://localhost:5001/api/policies"
          (Some (JObj [("agentId", JStr "a1"); ("endpointId", JStr "e1");
                       ("permissions", unset)])) 10].
Proof.
  cbv zeta.
  assert (H0 : dict_get "permissions" Scenario.no_permissions_fields = None)
    by reflexivity.
  destruct (missing_permissions_default Instance.environ
              (Instance.answers Scenario.ok_200) Decoder.loads Instance.decode
                Instance.status_phrase
              Instance.lax_bool Scenario.no_permissions_fields "a1" [] H0)
    as [Hupdate Hcreate].
  split; [exact H0 |]. split.
  - rewrite Hupdate. reflexivity.
  - rewrite (Hcreate "a1" "e1" eq_refl eq_refl). reflexivity.
Defined.

(** An update that sets [delete], with and without an explicit [None]
    for [read]. *)
Lemma explicit_null_exchange :
  let up := Instance.answers Scenario.ok_200 in
  let serve := serve Instance.environ up Decoder.loads Instance.decode
    Instance.status_phrase
                 Instance.lax_bool in
  let flags := [("delete", JBool false)] in
  (In "read" Permissions.field_names /\ dict_get "read" flags = None)
  /\ serve (InUpdatePolicy "a1"
              (JObj [("permissions", JObj (("read", JNull) :: flags))])) []
     = serve (InUpdatePolicy "a1" (JObj [("permissions", JObj flags)])) [].
Proof.
  cbv zeta.
  assert (H0 : In "read" Permissions.field_names) by (left; reflexivity).
  assert (H1 : dict_get "read" [("delete", JBool false)] = None) by reflexivity.
  exact (conj (conj H0 H1)
           (explicit_null_is_unset Instance.environ
              (Instance.answers Scenario.ok_200) Decoder.loads Instance.decode
                Instance.status_phrase
              Instance.lax_bool "read" [("delete", JBool false)] "a1" [] H0 H1)).
Defined.

(** A create whose [agentId] is the number 7. *)
Lemma numeric_agent_id_exchange :
  let up := Instance.answers Scenario.created in
  ((dict_get "agentId" Scenario.numeric_agent_fields = Some (JInt 7)
    \/ dict_get "endpointId" Scenario.numeric_agent_fields = Some (JInt 7))
   /\ forall s, JInt 7 <> JStr s)
  /\ serve Instance.environ up Decoder.loads Instance.decode
    Instance.status_phrase Instance.lax_bool
       (InCreatePolicy (JObj Scenario.numeric_agent_fields)) []
     = (inl RequestValidationError, []).
Proof.
  cbv zeta.
  assert (H0 : dict_get "agentId" Scenario.numeric_agent_fields = Some (JInt 7)
               \/ dict_get "endpointId" Scenario.numeric_agent_fields = Some (JInt 7))
    by (left; reflexivity).
  assert (H1 : forall s, JInt 7 <> JStr s) by discriminate.
  exact (conj (conj H0 H1)
           (non_string_identifier_rejected Instance.environ
              (Instance.answers Scenario.created) Decoder.loads Instance.decode
                Instance.status_phrase
              Instance.lax_bool Scenario.numeric_agent_fields (JInt 7) [] H0 H1)).
Defined.

(** A create and an update whose [permissions] is [None]. *)
Lemma null_permissions_exchange :
  let up := Instance.answers Scenario.created in
  let serve := serve Instance.environ up Decoder.loads Instance.decode
    Instance.status_phrase
                 Instance.lax_bool in
  (dict_get "permissions" Scenario.null_permissions_fields = Some JNull
   /\ forall fs, JNull <> JObj fs)
  /\ (serve (InCreatePolicy (JObj Scenario.null_permissions_fields)) []
      = (inl RequestValidationError, [])
      /\ serve (InUpdatePolicy "a1" (JObj Scenario.null_permissions_fields)) []
         = (inl RequestValidationError, [])).
Proof.
  cbv zeta.
  assert (H0 : dict_get "permissions" Scenario.null_permissions_fields = Some JNull)
    by reflexivity.
  assert (H1 : forall fs, JNull <> JObj fs) by discriminate.
  exact (conj (conj H0 H1)
           (non_dict_permissions_rejected Instance.environ
              (Instance.answers Scenario.created) Decoder.loads Instance.decode
                Instance.status_phrase
              Instance.lax_bool Scenario.null_permissions_fields JNull "a1" [] H0 H1)).
Defined.

(** Unexpected answers whose body is [null]: with status code 404 the
    detail is the phrase of 404; with status code 520, which has no
    phrase, a [ValueError] is raised. *)
Lemma null_body_exchange :
  let run up := proxy_request Instance.environ up Decoder.loads Instance.decode
                  Instance.status_phrase "GET" "/health" None [200] [] in
  let req := outbound Instance.environ "GET" "/health" None in
  ((Instance.answers Scenario.null_404 [] req = inr Scenario.null_404
    /\ ~ In (status_code Scenario.null_404) [200]
    /\ Decoder.loads (content Scenario.null_404) = inr JNull
    /\ Instance.status_phrase (status_code Scenario.null_404) = Some "Not Found")
   /\ run (Instance.answers Scenario.null_404)
      = (inl (HTTPException 404 (JStr "Not Found")), ([] ++ [req])%list))
  /\ ((Instance.answers Scenario.null_520 [] req = inr Scenario.null_520
       /\ ~ In (status_code Scenario.null_520) [200]
       /\ Decoder.loads (content Scenario.null_520) = inr JNull
       /\ Instance.status_phrase (status_code Scenario.null_520) = None)
      /\ run (Instance.answers Scenario.null_520)
         = (inl (ValueError 520), ([] ++ [req])%list)).
Proof.
  cbv zeta.
  set (req := outbound Instance.environ "GET" "/health" None).
  assert (A0 : Instance.answers Scenario.null_404 [] req = inr Scenario.null_404)
    by reflexivity.
  assert (A1 : ~ In (status_code Scenario.null_404) [200]) by (cbn; lia).
  assert (A2 : Decoder.loads (content Scenario.null_404) = inr JNull)
    by (vm_compute; reflexivity).
  assert (A3 : Instance.status_phrase (status_code Scenario.null_404)
               = Some "Not Found") by (vm_compute; reflexivity).
  assert (B0 : Instance.answers Scenario.null_520 [] req = inr Scenario.null_520)
    by reflexivity.
  assert (B1 : ~ In (status_code Scenario.null_520) [200]) by (cbn; lia).
  assert (B2 : Decoder.loads (content Scenario.null_520) = inr JNull)
    by (vm_compute; reflexivity).
  assert (B3 : Instance.status_phrase (status_code Scenario.null_520) = None)
    by (vm_compute; reflexivity).
  split.
  - exact (conj (conj A0 (conj A1 (conj A2 A3)))
             (proj1 (null_body_detail_is_phrase Instance.environ
                       (Instance.answers Scenario.null_404) Decoder.loads
                       Instance.decode Instance.status_phrase
                       "GET" "/health" None [200] [] Scenario.null_404 A0 A1 A2)
                "Not Found" A3)).
  - exact (conj (conj B0 (conj B1 (conj B2 B3)))
             (proj2 (null_body_detail_is_phrase Instance.environ
                       (Instance.answers Scenario.null_520) Decoder.loads
                       Instance.decode Instance.status_phrase
                       "GET" "/health" None [200] [] Scenario.null_520 B0 B1 B2)
                B3)).
Defined.
